(** * Cargue masivo: classification, routing and reconciliation rules

    A shallow embedding of the record classification and field-resolution
    pipeline of the repository (estructuras/services, generadores,
    generadores_nuevo) together with the properties of its specification.

    Conventions of the embedding.
    - A Python [str] is a [string] of bytes (UTF-8).  The Unicode-aware
      methods are modelled on the ASCII range: [str.strip] removes the ASCII
      white space characters, the regular expression class [\d] is [0-9];
      [str.lower] and [str.upper] map ASCII letters and the two-byte UTF-8
      letters of the Latin-1 supplement (which covers every accented header
      of the variant tables); other bytes are left as they are.
    - A dictionary used as a record is a [gmap string pyval]; where the
      source iterates over the items of a row the row is an association
      list, which keeps the insertion order.
    - A function that can raise returns an [option]; [None] is the raised
      exception.
    - The clock, the reference database and the file system are explicit
      arguments and results. *)

From Stdlib Require Import ZArith String Ascii List Lia Bool Decimal DecimalString.
From stdpp Require Import base option list gmap strings.

Local Open Scope string_scope.
Local Open Scope list_scope.

(** ** Python values and strings *)

Module Py.

(** The values that a row of the spreadsheet reader and the transformer can
    hold: [None], a flag, or a string. *)
Inductive pyval : Type :=
  | PNone
  | PBool (b : bool)
  | PStr (s : string).

(** [str(v)] *)
Definition str (v : pyval) : string :=
  match v with
  | PNone => "None"
  | PBool true => "True"
  | PBool false => "False"
  | PStr s => s
  end.

(** Truth value of [v], as in [if v:] and [bool(v)]. *)
Definition truthy (v : pyval) : bool :=
  match v with
  | PNone => false
  | PBool b => b
  | PStr "" => false
  | PStr _ => true
  end.

Definition no_vacia (s : string) : bool :=
  match s with "" => false | _ => true end.

(** [d.get(k, '')] on a record *)
Definition get (d : gmap string pyval) (k : string) : pyval :=
  default (PStr "") (d !! k).

(** A method of [str] applied to a value that is not a string raises
    [AttributeError]. *)
Definition como_str (v : pyval) : option string :=
  match v with PStr s => Some s | _ => None end.

Definition code (c : ascii) : nat := nat_of_ascii c.

Definition entre (lo hi : nat) (c : ascii) : bool :=
  (lo <=? code c)%nat && (code c <=? hi)%nat.

(** [c.isspace()] on the ASCII range. *)
Definition is_space (c : ascii) : bool :=
  entre 9 13 c || entre 28 32 c.

Definition is_digit (c : ascii) : bool := entre 48 57 c.

Definition digit_val (c : ascii) : nat := code c - 48.

Fixpoint lstrip (s : string) : string :=
  match s with
  | "" => ""
  | String c s' => if is_space c then lstrip s' else s
  end.

Fixpoint rstrip (s : string) : string :=
  match s with
  | "" => ""
  | String c s' =>
      match rstrip s' with
      | "" => if is_space c then "" else String c ""
      | r => String c r
      end
  end.

(** [s.strip()] *)
Definition strip (s : string) : string := rstrip (lstrip s).

Definition upper_ascii (c : ascii) : ascii :=
  if entre 97 122 c then ascii_of_nat (code c - 32) else c.

Definition lower_ascii (c : ascii) : ascii :=
  if entre 65 90 c then ascii_of_nat (code c + 32) else c.

(** Second byte of a two-byte letter whose first byte is 195 (U+00C0 to
    U+00FF): the capital letters are 128..158 without 151 (the
    multiplication sign), the small letters 160..190 without 183 (the
    division sign). *)
Definition upper_latin (c : ascii) : ascii :=
  if entre 160 190 c && negb (code c =? 183)%nat
  then ascii_of_nat (code c - 32) else c.

Definition lower_latin (c : ascii) : ascii :=
  if entre 128 158 c && negb (code c =? 151)%nat
  then ascii_of_nat (code c + 32) else c.

(** [s.upper()] *)
Fixpoint upper (s : string) : string :=
  match s with
  | "" => ""
  | String c s' =>
      if (code c =? 195)%nat then
        match s' with
        | "" => String c ""
        | String c2 s'' => String c (String (upper_latin c2) (upper s''))
        end
      else String (upper_ascii c) (upper s')
  end.

(** [s.lower()] *)
Fixpoint lower (s : string) : string :=
  match s with
  | "" => ""
  | String c s' =>
      if (code c =? 195)%nat then
        match s' with
        | "" => String c ""
        | String c2 s'' => String c (String (lower_latin c2) (lower s''))
        end
      else String (lower_ascii c) (lower s')
  end.

(** [s.replace(c, por)] for a pattern of one character. *)
Fixpoint replace (c : ascii) (por : string) (s : string) : string :=
  match s with
  | "" => ""
  | String x s' =>
      if Ascii.eqb x c then por +:+ replace c por s'
      else String x (replace c por s')
  end.

(** [s.startswith(p)] *)
Fixpoint startswith (p s : string) : bool :=
  match p, s with
  | "", _ => true
  | String a p', String b s' => Ascii.eqb a b && startswith p' s'
  | _, "" => false
  end.

(** [p in s] for strings *)
Fixpoint contains (p s : string) : bool :=
  startswith p s ||
  match s with
  | "" => false
  | String _ s' => contains p s'
  end.

(** [s.split(c)[0]] *)
Fixpoint split_first (c : ascii) (s : string) : string :=
  match s with
  | "" => ""
  | String x s' => if Ascii.eqb x c then "" else String x (split_first c s')
  end.

Definition has_char (c : ascii) (s : string) : bool :=
  contains (String c "") s.

Fixpoint all_chars (p : ascii -> bool) (s : string) : bool :=
  match s with
  | "" => true
  | String c s' => p c && all_chars p s'
  end.

(** [x in (a, b, ...)] for strings *)
Definition en_lista (x : string) (l : list string) : bool :=
  bool_decide (x ∈ l).

(** [str(n)] for a natural number and for an integer. *)
Definition str_nat (n : nat) : string :=
  NilZero.string_of_uint (Nat.to_uint n).

Definition str_Z (z : Z) : string :=
  NilZero.string_of_int (Z.to_int z).

End Py.

(** ** A fragment of regular expressions: sequences of character classes *)

Module Re.
Import Py.

Definition clase : Type := ascii -> bool.

Definition cls (lo hi : ascii) : clase := fun c => entre (code lo) (code hi) c.
Definition chr (x : ascii) : clase := fun c => Ascii.eqb c x.

(** Read a sequence of classes at the start of [s]: the text read and the
    rest. *)
Fixpoint leer (a : list clase) (s : string) : option (string * string) :=
  match a with
  | [] => Some ("", s)
  | p :: a' =>
      match s with
      | String c s' =>
          if p c then
            match leer a' s' with
            | Some (t, r) => Some (String c t, r)
            | None => None
            end
          else None
      | "" => None
      end
  end.

Fixpoint primero {A B : Type} (f : A -> option B) (l : list A) : option B :=
  match l with
  | [] => None
  | x :: l' => match f x with Some y => Some y | None => primero f l' end
  end.

(** [re.match(p, s)] for a pattern that is a sequence of classes. *)
Definition coincide (p : list clase) (s : string) : bool :=
  match leer p s with Some _ => true | None => false end.

End Re.

(** ** Dates: [datetime.strptime] and [strftime] for the formats in use *)

Module Fechas.
Import Py Re.

(** A format is a sequence of directives [%Y], [%m], [%d] and literal
    characters. *)
Inductive directiva : Type :=
  | DY
  | Dm
  | Dd
  | DLit (c : ascii).

(** The alternatives of the regular expression that [_strptime] compiles
    for a directive, in the order in which the matcher tries them:
    [%d] is [3[0-1]|[1-2]\d|0[1-9]|[1-9]| [1-9]], [%m] is
    [1[0-2]|0[1-9]|[1-9]] and [%Y] is [\d\d\d\d]. *)
Definition alternativas (d : directiva) : list (list clase) :=
  match d with
  | Dd => [ [chr "3"; cls "0" "1"]; [cls "1" "2"; is_digit];
            [chr "0"; cls "1" "9"]; [cls "1" "9"]; [chr " "; cls "1" "9"] ]
  | Dm => [ [chr "1"; cls "0" "2"]; [chr "0"; cls "1" "9"]; [cls "1" "9"] ]
  | DY => [ [is_digit; is_digit; is_digit; is_digit] ]
  | DLit c => [ [chr c] ]
  end.

(** One group of the compiled format: the alternatives of the directive in
    their order, each followed by the rest [k] of the expression; the first
    that leads to a match wins. *)
Definition paso (d : directiva)
    (k : string -> option (list (directiva * string) * string)) (s : string)
  : option (list (directiva * string) * string) :=
  primero (fun a =>
    match leer a s with
    | Some (t, r) =>
        match k r with
        | Some (gs, r') => Some ((d, t) :: gs, r')
        | None => None
        end
    | None => None
    end) (alternativas d).

(** [re.match] of the compiled format: the first match in backtracking
    order, as the texts of the groups and the rest of the string. *)
Fixpoint re_match (fmt : list directiva) (s : string)
  : option (list (directiva * string) * string) :=
  match fmt with
  | [] => Some ([], s)
  | d :: fmt' => paso d (re_match fmt') s
  end.

(** [int(t)] for the text of a group (digits, possibly after a space). *)
Fixpoint int_digits (acc : nat) (s : string) : nat :=
  match s with
  | "" => acc
  | String c s' =>
      if is_digit c then int_digits (10 * acc + digit_val c) s'
      else int_digits acc s'
  end.

Definition es_dir (d e : directiva) : bool :=
  match d, e with
  | DY, DY | Dm, Dm | Dd, Dd => true
  | _, _ => false
  end.

Fixpoint grupo (d : directiva) (def : nat) (gs : list (directiva * string)) : nat :=
  match gs with
  | [] => def
  | (e, t) :: gs' => if es_dir d e then int_digits 0 t else grupo d def gs'
  end.

Record fecha : Type := { anio : nat; mes : nat; dia : nat }.

Definition bisiesto (y : nat) : bool :=
  ((y mod 4 =? 0) && negb (y mod 100 =? 0) || (y mod 400 =? 0))%nat.

Definition dias_del_mes (y m : nat) : nat :=
  match m with
  | 2 => if bisiesto y then 29 else 28
  | 4 | 6 | 9 | 11 => 30
  | _ => 31
  end.

(** The constructor [datetime(year, month, day)]: [ValueError] outside the
    calendar. *)
Definition datetime (y m d : nat) : option fecha :=
  if ((1 <=? y) && (y <? 100 * 100) && (1 <=? m) && (m <=? 12)
      && (1 <=? d) && (d <=? dias_del_mes y m))%nat
  then Some {| anio := y; mes := m; dia := d |}
  else None.

(** [datetime.strptime(s, fmt)]; [None] is [ValueError] (no match,
    unconverted data after the match, or a day that does not exist). *)
Definition strptime (s : string) (fmt : list directiva) : option fecha :=
  match re_match fmt s with
  | Some (gs, "") => datetime (grupo DY 1900 gs) (grupo Dm 1 gs) (grupo Dd 1 gs)
  | _ => None
  end.

Fixpoint ceros (n : nat) : string :=
  match n with
  | O => ""
  | S n' => String "0" (ceros n')
  end.

(** A number in at least [w] digits, as [%02d] and [%04d] print it. *)
Definition zfill (w : nat) (n : nat) : string :=
  let s := str_nat n in ceros (w - String.length s) +:+ s.

(** [f.strftime('%d/%m/%Y')], with the year in four digits as documented
    for [%Y]. *)
Definition strftime_dmY (f : fecha) : string :=
  zfill 2 (dia f) +:+ "/" +:+ zfill 2 (mes f) +:+ "/" +:+ zfill 4 (anio f).

(** [f.strftime('%Y-%m-%d')] *)
Definition strftime_Ymd (f : fecha) : string :=
  zfill 4 (anio f) +:+ "-" +:+ zfill 2 (mes f) +:+ "-" +:+ zfill 2 (dia f).

Definition Y_m_d : list directiva := [DY; DLit "-"; Dm; DLit "-"; Dd].
Definition d_m_Y : list directiva := [Dd; DLit "/"; Dm; DLit "/"; DY].
Definition m_d_Y : list directiva := [Dm; DLit "/"; Dd; DLit "/"; DY].
Definition Y_m_d_barra : list directiva := [DY; DLit "/"; Dm; DLit "/"; Dd].
Definition d_m_Y_guion : list directiva := [Dd; DLit "-"; Dm; DLit "-"; DY].

(** The loop [for formato in formatos: try: ... strptime ... except
    ValueError: continue]: the first format that parses. *)
Definition primer_formato (s : string) (formatos : list (list directiva))
  : option fecha :=
  primero (strptime s) formatos.

(** [re.match(r'^\d{2}/\d{2}/\d{4}$', s)]; [$] also matches before a final
    newline. *)
Definition es_dd_mm_yyyy (s : string) : bool :=
  match leer [is_digit; is_digit; chr "/"; is_digit; is_digit; chr "/";
              is_digit; is_digit; is_digit; is_digit] s with
  | Some (_, "") => true
  | Some (_, String c "") => Ascii.eqb c "010"
  | _ => false
  end.

End Fechas.

(** ** services: DataUtils *)

Module DataUtils.
Import Py Re Fechas.

Definition formatos : list (list directiva) :=
  [Y_m_d; d_m_Y; m_d_Y; Y_m_d_barra].

(** [if ' ' in fecha_str: fecha_str = fecha_str.split(' ')[0]] *)
Definition sin_hora (fecha_str : string) : string :=
  if has_char " " fecha_str then split_first " " fecha_str else fecha_str.

(** [DataUtils.formatear_fecha].  A flag is an [int] for [isinstance]: the
    serial-number branch turns [True] into the day before 01/01/1900. *)
Definition formatear_fecha (fecha : pyval) : string :=
  if negb (truthy fecha) || negb (no_vacia (strip (str fecha))) then ""
  else
    let fecha_str := strip (str fecha) in
    if es_dd_mm_yyyy fecha_str then fecha_str
    else
      match fecha with
      | PBool _ => "31/12/1899"
      | PStr _ =>
          match primer_formato (sin_hora fecha_str) formatos with
          | Some f => strftime_dmY f
          | None => ""
          end
      | PNone => ""
      end.

(** Whether [s] is the whole of a match of [\d+], and of [\d+\.0+]. *)
Definition solo_digitos (s : string) : bool :=
  no_vacia s && all_chars is_digit s.

Fixpoint tras_punto (s : string) : option string :=
  match s with
  | "" => None
  | String c s' => if Ascii.eqb c "." then Some s' else tras_punto s'
  end.

Definition entero_punto_ceros (s : string) : bool :=
  solo_digitos (split_first "." s) &&
  match tras_punto s with
  | Some z => no_vacia z && all_chars (fun c => Ascii.eqb c "0") z
  | None => false
  end.

(** [DataUtils.normalizar_codigo_material] *)
Definition normalizar_codigo_material (valor : pyval) : string :=
  match valor with
  | PNone => ""
  | PBool _ => str valor
  | PStr v =>
      let s := strip v in
      if negb (no_vacia s) then ""
      else
        let s2 := replace "," "." s in
        if solo_digitos s2 then s2
        else if entero_punto_ceros s2 then split_first "." s2
        else s
  end.

End DataUtils.

(** ** generadores_nuevo: GeneradorBase *)

Module GeneradorBase.
Import Py Re Fechas.

Inductive formato_salida : Type :=
  | DD_MM_YYYY
  | YYYY_MM_DD.

Definition formatos_entrada : list (list directiva) :=
  [d_m_Y; Y_m_d; d_m_Y_guion; m_d_Y; Y_m_d_barra].

Definition salida (fs : formato_salida) (f : fecha) : string :=
  match fs with
  | DD_MM_YYYY => strftime_dmY f
  | YYYY_MM_DD => strftime_Ymd f
  end.

(** [GeneradorBase.formatear_fecha], for the two named output formats. *)
Definition formatear_fecha_a (valor : pyval) (fs : formato_salida) : string :=
  if negb (truthy valor)
     || en_lista (lower (strip (str valor))) ["nan"; "none"; ""]
  then "01/01/1900"
  else
    let valor_str := strip (str valor) in
    match primer_formato valor_str formatos_entrada with
    | Some f => salida fs f
    | None => "01/01/1900"
    end.

(** The call with the default [formato_salida='DD/MM/YYYY']. *)
Definition formatear_fecha (valor : pyval) : string :=
  formatear_fecha_a valor DD_MM_YYYY.

End GeneradorBase.


(** ** constants: the rule tables

    The module [constants] of the repository is not among the sources; the
    classifier takes its tables as a parameter. *)

Module Constantes.
Import Py Re.

(** An entry of [REGLAS_CLASIFICACION['CLASIFICACION_TIPO_POR_UC']
    ['REGLAS_PRIORITARIAS']]. *)
Record regla_tipo : Type := { PATRON : list clase; TIPO : string }.

(** An entry of [MAPEO_UC_MATERIAL['REGLAS_POR_PATRON']]: [patron] gives,
    for a string that the pattern matches, [match.group(1)]; a rule without
    pattern has [None]. *)
Record regla_patron : Type := {
  patron : option (string -> option string);
  mapeo : option (gmap string string);
  alturas : option (gmap string (list string))
}.

Record constantes : Type := {
  (** [REGLAS_CLASIFICACION['CLASIFICACION_TIPO_POR_UC']] *)
  REGLAS_PRIORITARIAS : list regla_tipo;
  VALOR_DEFECTO_TIPO : string;
  (** [REGLAS_CLASIFICACION['CONVERSION_TIPO_PROYECTO']]: the entries for
      the roman numerals, and the entries ['VALOR_DEFECTO'] and
      ['MAPEO_NIVEL_TENSION'] (a dictionary, in its order) *)
  CONVERSION_TIPO_PROYECTO : gmap string string;
  VALOR_DEFECTO_PROYECTO : string;
  MAPEO_NIVEL_TENSION : list (string * string);
  (** [MAPEO_UC_MATERIAL] *)
  MAPEOS_DIRECTOS : gmap string string;
  REGLAS_POR_PATRON : list regla_patron;
  MAPEO_POR_DEFECTO : gmap string string;
  CATALOGO_MATERIALES : gset string;
  ESTADOS_SALUD : gmap string string
}.

(** Modelled from the spec: the type rules of constants.py.  A code
    matching [N1...] is SECUNDARIO, one matching [N[2-4]...] is PRIMARIO,
    the default is SECUNDARIO. *)
Definition REGLAS_PRIORITARIAS_spec : list regla_tipo :=
  [ {| PATRON := [chr "N"; chr "1"]; TIPO := "SECUNDARIO" |};
    {| PATRON := [chr "N"; cls "2" "4"]; TIPO := "PRIMARIO" |} ].

Definition VALOR_DEFECTO_TIPO_spec : string := "SECUNDARIO".

(** Modelled from the spec: the direct map of the roman numerals of
    constants.py, I to T1, II to T2, III to T3, IV to T4. *)
Definition CONVERSION_TIPO_PROYECTO_spec : gmap string string :=
  list_to_map [("I", "T1"); ("II", "T2"); ("III", "T3"); ("IV", "T4")].

(** Modelled from the spec: the health states of constants.py, "1" is
    BUENO, "2" is REGULAR, "3" is MALO, and the three names stand for
    themselves. *)
Definition ESTADOS_SALUD_spec : gmap string string :=
  list_to_map [("1", "BUENO"); ("2", "REGULAR"); ("3", "MALO");
               ("BUENO", "BUENO"); ("REGULAR", "REGULAR"); ("MALO", "MALO")].

(** Modelled from the spec: an instance of the tables of constants.py.
    The voltage levels are the two of the docstring of
    [_generar_tipo_proyecto_desde_nivel_tension]; without a match the
    project type is left to the conversion of the roman numeral, so the
    default is empty.  The material tables hold one direct entry and one
    default, enough to run the three tiers. *)
Definition constantes_spec : constantes := {|
  REGLAS_PRIORITARIAS := REGLAS_PRIORITARIAS_spec;
  VALOR_DEFECTO_TIPO := VALOR_DEFECTO_TIPO_spec;
  CONVERSION_TIPO_PROYECTO := CONVERSION_TIPO_PROYECTO_spec;
  VALOR_DEFECTO_PROYECTO := "";
  MAPEO_NIVEL_TENSION := [("N3L75", "T1"); ("N3L79", "T3")];
  MAPEOS_DIRECTOS := {[ "N3L75" := "200067" ]};
  REGLAS_POR_PATRON := [];
  MAPEO_POR_DEFECTO := {[ "SECUNDARIO" := "200001" ]};
  CATALOGO_MATERIALES := {[ "200067"; "200001" ]};
  ESTADOS_SALUD := ESTADOS_SALUD_spec
|}.

End Constantes.

(** ** services: ClasificadorEstructuras *)

Module ClasificadorEstructuras.
Import Py Re Constantes.

Section Clasificador.

Variable K : constantes.

(** [_clasificar_tipo_por_uc] *)
Fixpoint primera_regla (reglas : list regla_tipo) (uc : string) : option string :=
  match reglas with
  | [] => None
  | regla :: reglas' =>
      if coincide (PATRON regla) uc then Some (TIPO regla)
      else primera_regla reglas' uc
  end.

Definition _clasificar_tipo_por_uc (uc : string) : string :=
  if negb (no_vacia uc) then VALOR_DEFECTO_TIPO K
  else default (VALOR_DEFECTO_TIPO K) (primera_regla (REGLAS_PRIORITARIAS K) uc).

(** [_roman_to_int] *)
Definition valores (ch : ascii) : Z :=
  (if Ascii.eqb ch "I" then 1 else if Ascii.eqb ch "V" then 5
   else if Ascii.eqb ch "X" then 10 else if Ascii.eqb ch "L" then 50
   else if Ascii.eqb ch "C" then 100 else if Ascii.eqb ch "D" then 500
   else if Ascii.eqb ch "M" then 1000 else 0)%Z.

Fixpoint roman_loop (l : list ascii) (total prev : Z) : Z :=
  match l with
  | [] => total
  | ch :: l' =>
      let v := valores ch in
      if (v <? prev)%Z then roman_loop l' (total - v)%Z prev
      else roman_loop l' (total + v)%Z v
  end.

Definition _roman_to_int (s : string) : Z :=
  let s := upper (strip s) in
  roman_loop (rev (list_ascii_of_string s)) 0 0.

Definition es_romano (c : ascii) : bool :=
  (0 <? valores c)%Z.

(** [re.findall(r"[IVXLCDM]+", s)]: the maximal runs, from left to right. *)
Fixpoint findall_romanos (s : string) (run : string) : list string :=
  match s with
  | "" => if no_vacia run then [run] else []
  | String c s' =>
      if es_romano c then findall_romanos s' (run +:+ String c "")
      else if no_vacia run then run :: findall_romanos s' ""
      else findall_romanos s' ""
  end.

(** [max(l, key=len)]: the first of the longest. *)
Fixpoint max_len (best : string) (l : list string) : string :=
  match l with
  | [] => best
  | x :: l' =>
      if (String.length best <? String.length x)%nat then max_len x l'
      else max_len best l'
  end.

(** [_convertir_tipo_proyecto] *)
Definition _convertir_tipo_proyecto (tipo_proyecto : string) : string :=
  if negb (no_vacia tipo_proyecto) then tipo_proyecto
  else
    let tipo_limpio := upper (strip tipo_proyecto) in
    let romano_extraido :=
      match findall_romanos tipo_limpio "" with
      | [] => tipo_limpio
      | x :: l => max_len x l
      end in
    match CONVERSION_TIPO_PROYECTO K !! romano_extraido with
    | Some t => t
    | None =>
        let valor := _roman_to_int romano_extraido in
        if (0 <? valor)%Z then "T" +:+ str_Z valor else tipo_proyecto
    end.

Fixpoint endswith_char (c : ascii) (s : string) : bool :=
  match s with
  | "" => false
  | String x "" => Ascii.eqb x c
  | String _ s' => endswith_char c s'
  end.

Fixpoint buscar (k : string) (l : list (string * string)) : option string :=
  match l with
  | [] => None
  | (k', v) :: l' => if String.eqb k k' then Some v else buscar k l'
  end.

Fixpoint por_patron (nivel : string) (l : list (string * string)) : option string :=
  match l with
  | [] => None
  | (patron, tipo_proyecto) :: l' =>
      if endswith_char "L" patron && startswith patron nivel
      then Some tipo_proyecto
      else por_patron nivel l'
  end.

(** [_generar_tipo_proyecto_desde_nivel_tension] *)
Definition _generar_tipo_proyecto_desde_nivel_tension (nivel_tension : string)
  : string :=
  if negb (no_vacia nivel_tension) then VALOR_DEFECTO_PROYECTO K
  else
    let nivel_limpio := upper (strip nivel_tension) in
    match buscar nivel_limpio (MAPEO_NIVEL_TENSION K) with
    | Some t => t
    | None =>
        default (VALOR_DEFECTO_PROYECTO K)
                (por_patron nivel_limpio (MAPEO_NIVEL_TENSION K))
    end.

Definition alguna (claves : list string) (s : string) : bool :=
  existsb (fun keyword => contains keyword s) claves.

(** [_clasificar_propietario] *)
Definition _clasificar_propietario (nombre_propietario : pyval) : option string :=
  if negb (truthy nombre_propietario) then Some "PARTICULAR"
  else
    nombre ← como_str nombre_propietario;
    let nombre_limpio := upper (strip nombre) in
    Some (if alguna ["CENS"; "CENTRALES"; "ELECTRICA"] nombre_limpio then "CENS"
          else if alguna ["ESTADO"; "GOBIERNO"; "PUBLICO"; "MINISTERIO"] nombre_limpio
               then "ESTADO"
          else if alguna ["COMPARTIDO"; "CONSORCIO"; "SOCIEDAD"] nombre_limpio
               then "COMPARTIDO"
          else "PARTICULAR").

Definition en_catalogo (codigo : string) : bool :=
  bool_decide (codigo ∈ CATALOGO_MATERIALES K).

(** The body of the loop over [REGLAS_POR_PATRON] for one rule: the code
    that the rule returns, if any. *)
Definition por_regla (regla : regla_patron) (uc_limpio : string) : option string :=
  match patron regla with
  | None => None
  | Some re_match =>
      match re_match uc_limpio with
      | None => None
      | Some grupo1 =>
          let por_mapeo :=
            match mapeo regla with
            | Some mapeo_cargas =>
                match mapeo_cargas !! grupo1 with
                | Some codigo_patron =>
                    if en_catalogo codigo_patron then Some codigo_patron else None
                | None => None
                end
            | None => None
            end in
          match por_mapeo with
          | Some c => Some c
          | None =>
              match alturas regla with
              | Some mapeo_alturas =>
                  match mapeo_alturas !! grupo1 with
                  | Some codigos_altura =>
                      primero (fun c => if en_catalogo c then Some c else None)
                              codigos_altura
                  | None => None
                  end
              | None => None
              end
          end
      end
  end.

(** [_asignar_codigo_material] *)
Definition _asignar_codigo_material (uc : string) : string :=
  if negb (no_vacia uc) then ""
  else
    let uc_limpio := upper (strip uc) in
    if negb (no_vacia uc_limpio) then ""
    else
      let directo :=
        match MAPEOS_DIRECTOS K !! uc_limpio with
        | Some codigo_directo =>
            if en_catalogo codigo_directo then Some codigo_directo else None
        | None => None
        end in
      match directo with
      | Some c => c
      | None =>
          match primero (fun regla => por_regla regla uc_limpio)
                        (REGLAS_POR_PATRON K) with
          | Some c => c
          | None =>
              let tipo_estructura := _clasificar_tipo_por_uc uc_limpio in
              match MAPEO_POR_DEFECTO K !! tipo_estructura with
              | Some codigo_defecto =>
                  if en_catalogo codigo_defecto then codigo_defecto else ""
              | None => ""
              end
          end
      end.

(** [_convertir_estado_salud] *)
Definition _convertir_estado_salud (estado_salud : pyval) : string :=
  if negb (truthy estado_salud)
     || en_lista (upper (strip (str estado_salud))) [""; "NAN"; "NONE"]
  then ""
  else
    let estado_str := upper (strip (str estado_salud)) in
    let estado_convertido := default "" (ESTADOS_SALUD K !! estado_str) in
    if en_lista estado_convertido ["BUENO"; "REGULAR"; "MALO"]
    then estado_convertido
    else "".

Definition _formatear_fecha (fecha : pyval) : string :=
  DataUtils.formatear_fecha fecha.

(** [a != b] for a string and a value of the record. *)
Definition distinto (a : string) (b : pyval) : bool :=
  match b with
  | PStr s => negb (String.eqb a s)
  | _ => true
  end.

Definition obs_generado (generado : string) (nivel_tension valor : string) : string :=
  "TIPO_PROYECTO generado como '" +:+ generado +:+ "' basado en "
  +:+ (if no_vacia nivel_tension then "NIVEL_TENSION" else "UC")
  +:+ ": " +:+ valor.

(** Regla 5 of [clasificar_estructura]: the value of TIPO_PROYECTO, the
    remark appended when it is generated, and the remark appended at the
    end. *)
Definition regla_tipo_proyecto (registro : gmap string pyval)
    (nivel_tension uc : string) : option (string * list string * list string) :=
  let valor_para_mapeo := if no_vacia nivel_tension then nivel_tension else uc in
  let tipo_proyecto_generado :=
    _generar_tipo_proyecto_desde_nivel_tension valor_para_mapeo in
  if no_vacia tipo_proyecto_generado then
    let o := obs_generado tipo_proyecto_generado nivel_tension valor_para_mapeo in
    Some (tipo_proyecto_generado, [o], [o])
  else
    tipo_excel ← como_str (get registro "TIPO_PROYECTO");
    let tipo_proyecto_original := strip tipo_excel in
    let tipo_proyecto_convertido := _convertir_tipo_proyecto tipo_proyecto_original in
    Some (tipo_proyecto_convertido, [],
          if String.eqb tipo_proyecto_original tipo_proyecto_convertido then []
          else ["TIPO_PROYECTO convertido de '" +:+ tipo_proyecto_original
                +:+ "' a '" +:+ tipo_proyecto_convertido +:+ "'"]).

(** Regla 6: the two dates. *)
Definition regla_fechas (registro rc : gmap string pyval) : gmap string pyval :=
  let fecha_instalacion := get registro "FECHA_INSTALACION" in
  if truthy fecha_instalacion then
    let fecha_formateada := _formatear_fecha fecha_instalacion in
    <["FECHA_OPERACION" := PStr fecha_formateada]>
      (<["FECHA_INSTALACION" := PStr fecha_formateada]> rc)
  else rc.

(** Regla 7: the material code. *)
Definition regla_codigo_material (registro : gmap string pyval) (uc : string)
    (rc : gmap string pyval) : gmap string pyval :=
  let cm_excel :=
    DataUtils.normalizar_codigo_material (get registro "CODIGO_MATERIAL") in
  let from_excel_flag := truthy (get registro "_CODIGO_MATERIAL_FROM_EXCEL") in
  if no_vacia cm_excel then <["CODIGO_MATERIAL" := PStr cm_excel]> rc
  else if negb from_excel_flag then
    let codigo_material := _asignar_codigo_material uc in
    if no_vacia codigo_material
    then <["CODIGO_MATERIAL" :=
             PStr (DataUtils.normalizar_codigo_material (PStr codigo_material))]> rc
    else rc
  else rc.

(** Regla 8: the health state. *)
Definition regla_estado_salud (registro rc : gmap string pyval) : gmap string pyval :=
  let estado_salud_convertido :=
    _convertir_estado_salud (get registro "ESTADO_SALUD") in
  if no_vacia estado_salud_convertido
  then <["ESTADO_SALUD" := PStr estado_salud_convertido]> rc
  else rc.

(** The remarks of the classification, in the order in which they are
    appended; [rc] is the record after the rules 1 to 8. *)
Definition observaciones (registro rc : gmap string pyval)
    (tipo_clasificado uc : string) (obs_inicio obs_proyecto : list string)
  : list string :=
  let cm_excel :=
    DataUtils.normalizar_codigo_material (get registro "CODIGO_MATERIAL") in
  let estado_salud_convertido :=
    _convertir_estado_salud (get registro "ESTADO_SALUD") in
  obs_inicio
  ++ ["TIPO clasificado como " +:+ tipo_clasificado +:+ " basado en UC: " +:+ uc;
      "GRUPO forzado a 'ESTRUCTURAS EYT'";
      "CLASE forzada a 'POSTE'";
      "USO forzado a 'DISTRIBUCION ENERGIA'";
      "PORCENTAJE_PROPIEDAD forzado a '100'"]
  ++ (if negb (no_vacia cm_excel) && truthy (get rc "CODIGO_MATERIAL")
      then ["CODIGO_MATERIAL asignado como '" +:+ str (get rc "CODIGO_MATERIAL")
            +:+ "' basado en UC: " +:+ uc]
      else [])
  ++ (if no_vacia estado_salud_convertido
         && distinto estado_salud_convertido (get registro "ESTADO_SALUD")
      then ["ESTADO_SALUD convertido de '" +:+ str (get registro "ESTADO_SALUD")
            +:+ "' a '" +:+ estado_salud_convertido +:+ "'"]
      else [])
  ++ obs_proyecto
  ++ (if truthy (get registro "FECHA_INSTALACION")
      then ["FECHA_OPERACION igualada a FECHA_INSTALACION"] else []).

(** [clasificar_estructura]; [ahora] is [datetime.now().isoformat()]. *)
Definition clasificar_estructura (ahora : string) (registro : gmap string pyval)
  : option (gmap string pyval) :=
  let rc := registro in
  let rc := <["GRUPO" := PStr "ESTRUCTURAS EYT"]> rc in
  let rc := <["CLASE" := PStr "POSTE"]> rc in
  let rc := <["USO" := PStr "DISTRIBUCION ENERGIA"]> rc in
  let rc := <["PORCENTAJE_PROPIEDAD" := PStr "100"]> rc in
  propietario_clasificado ← _clasificar_propietario (get registro "PROPIETARIO");
  let rc := <["PROPIETARIO" := PStr propietario_clasificado]> rc in
  uc_excel ← como_str (get registro "UC");
  let uc := upper (strip uc_excel) in
  let tipo_clasificado := _clasificar_tipo_por_uc uc in
  let rc := <["TIPO" := PStr tipo_clasificado]> rc in
  nivel_excel ← como_str (get registro "NIVEL_TENSION");
  let nivel_tension := strip nivel_excel in
  let uc := strip uc_excel in
  proyecto ← regla_tipo_proyecto registro nivel_tension uc;
  let rc := <["TIPO_PROYECTO" := PStr proyecto.1.1]> rc in
  let rc := regla_fechas registro rc in
  let rc := regla_codigo_material registro uc rc in
  let rc := regla_estado_salud registro rc in
  let observaciones_clasificacion :=
    observaciones registro rc tipo_clasificado uc proyecto.1.2 proyecto.2 in
  observaciones_excel ← como_str (get registro "OBSERVACIONES");
  let rc :=
    if negb (no_vacia (strip observaciones_excel))
    then <["OBSERVACIONES" := PStr ""]> rc else rc in
  let rc := <["OBSERVACION_CLASIFICACION_SISTEMA" :=
               PStr (String.concat "; " observaciones_clasificacion)]> rc in
  let rc := <["FECHA_CLASIFICACION" := PStr ahora]> rc in
  let rc := <["VERSION_REGLAS" := PStr "2.5"]> rc in
  Some rc.

End Clasificador.

End ClasificadorEstructuras.

(** ** services: FileGenerator, the rows of the conductors sheet *)

Module FileGenerator.
Import Py.

(** A row of [_leer_hoja_conductores]: the columns in the order of the
    sheet. *)
Definition fila_excel : Type := list (string * pyval).

(** [registro[nombre]] when [nombre in registro] *)
Fixpoint item (registro : fila_excel) (nombre : string) : option pyval :=
  match registro with
  | [] => None
  | (k, v) :: registro' => if String.eqb k nombre then Some v else item registro' nombre
  end.

Definition nl : string := String "010" "".

(** The table [variantes] of [_extraer_campo_conductor]. *)
Definition variantes (campo_tipo : string) : list string :=
  if String.eqb campo_tipo "codigo_fid_git" then
    ["Código FID" +:+ nl +:+ "GIT"; "Código FID GIT"; "Codigo FID GIT";
     "CODIGO_FID_GIT"; "código fid git"; "codigo fid git";
     "FID_GIT"; "FID GIT"; "Código FID_rep"]
  else if String.eqb campo_tipo "unidad_constructiva" then
    ["Unidad Constructiva"; "UNIDAD_CONSTRUCTIVA";
     "unidad constructiva"; "UC"; "UNIDAD CONSTRUCTIVA"]
  else if String.eqb campo_tipo "identificador" then
    ["Identificador_1"; "Identificador_2"; "Identificador";
     "IDENTIFICADOR"; "identificador"; "ID"; "Id"; "ENLACE"]
  else if String.eqb campo_tipo "fecha_instalacion" then
    ["Fecha Instalacion" +:+ nl +:+ "DD/MM/YYYY"; "Fecha Instalacion DD/MM/YYYY";
     "Fecha Instalación"; "FECHA_INSTALACION"; "Fecha Instalacion";
     "fecha instalacion"]
  else if String.eqb campo_tipo "coordenada_x1" then
    ["Coordenada_X1" +:+ nl +:+ "LONGITUD"; "Coordenada_X1 LONGITUD";
     "Coordenada_X1"; "COORDENADA_X1"; "coordenada x1";
     "Coordenada X1"; "LONGITUD"]
  else if String.eqb campo_tipo "coordenada_y1" then
    ["Coordenada_Y1" +:+ nl +:+ "LATITUD"; "Coordenada_Y1 LATITUD";
     "Coordenada_Y1"; "COORDENADA_Y1"; "coordenada y1";
     "Coordenada Y1"; "LATITUD"]
  else if String.eqb campo_tipo "coordenada_x2" then
    ["Coordenada_X2" +:+ nl +:+ "LONGITUD2"; "Coordenada_X2 LONGITUD2";
     "Coordenada_X2"; "COORDENADA_X2"; "coordenada x2";
     "Coordenada X2"; "LONGITUD2"]
  else if String.eqb campo_tipo "coordenada_y2" then
    ["Coordenada_Y2" +:+ nl +:+ "LATITUD3"; "Coordenada_Y2 LATITUD3";
     "Coordenada_Y2"; "COORDENADA_Y2"; "coordenada y2";
     "Coordenada Y2"; "LATITUD3"]
  else if String.eqb campo_tipo "nivel_tension" then
    ["Nivel de Tension"; "Nivel de Tensión"; "NIVEL_TENSION";
     "nivel tension"; "Nivel Tension"]
  else if String.eqb campo_tipo "municipio" then
    ["Municipio"; "MUNICIPIO"; "municipio"]
  else if String.eqb campo_tipo "fases" then
    ["Fases"; "FASES"; "fases"]
  else if String.eqb campo_tipo "numero_conductores" then
    ["Número de conductores"; "Numero de conductores";
     "NUMERO_CONDUCTORES"; "numero conductores"]
  else if String.eqb campo_tipo "clase" then
    ["CLASE"; "Clase"; "clase"]
  else if String.eqb campo_tipo "poblacion" then
    ["POBLACION"; "Poblacion"; "poblacion"; "Población"]
  else if String.eqb campo_tipo "tipo" then
    ["TIPO"; "Tipo"; "tipo"]
  else if String.eqb campo_tipo "material" then
    ["MATERIAL"; "Material"; "material"]
  else if String.eqb campo_tipo "calibre" then
    ["CALIBRE"; "Calibre"; "calibre"]
  else [].

(** The test [valor and str(valor).strip() and str(valor).strip().lower()
    not in ('nan', 'none', 'null', '')]. *)
Definition con_valor (valor : pyval) : bool :=
  truthy valor && no_vacia (strip (str valor))
  && negb (en_lista (lower (strip (str valor))) ["nan"; "none"; "null"; ""]).

(** [key.lower().replace('\n', '').replace(' ', '').replace('_', '').strip()] *)
Definition normalizar_nombre (key : string) : string :=
  strip (replace "_" "" (replace " " "" (replace "010" "" (lower key)))).

(** First pass: the variants, in order, as exact names of columns. *)
Fixpoint por_nombre (registro : fila_excel) (nombres : list string) : option string :=
  match nombres with
  | [] => None
  | nombre :: nombres' =>
      match item registro nombre with
      | Some valor =>
          if con_valor valor then Some (strip (str valor))
          else por_nombre registro nombres'
      | None => por_nombre registro nombres'
      end
  end.

(** Second pass, for one column: the inner loop over the variants. *)
Fixpoint por_nombre_normalizado (key_norm : string) (value : pyval)
    (nombres : list string) : option string :=
  match nombres with
  | [] => None
  | nombre :: nombres' =>
      if String.eqb key_norm (normalizar_nombre nombre) && con_valor value
      then Some (strip (str value))
      else por_nombre_normalizado key_norm value nombres'
  end.

Fixpoint busqueda_flexible (items : fila_excel) (nombres : list string) : option string :=
  match items with
  | [] => None
  | (key, value) :: items' =>
      match por_nombre_normalizado (normalizar_nombre key) value nombres with
      | Some v => Some v
      | None => busqueda_flexible items' nombres
      end
  end.

(** [_extraer_campo_conductor] *)
Definition _extraer_campo_conductor (registro : fila_excel) (campo_tipo : string)
  : string :=
  let nombres_posibles := variantes campo_tipo in
  match por_nombre registro nombres_posibles with
  | Some v => v
  | None => default "" (busqueda_flexible registro nombres_posibles)
  end.

(** The filter of [generar_txt_linea]: the rows of the file NUEVO. *)
Fixpoint datos_nuevo (datos_conductor : list fila_excel) : list fila_excel :=
  match datos_conductor with
  | [] => []
  | registro :: resto =>
      let fid_git := _extraer_campo_conductor registro "codigo_fid_git" in
      let unidad_constructiva :=
        _extraer_campo_conductor registro "unidad_constructiva" in
      if no_vacia fid_git && negb (no_vacia unidad_constructiva)
      then datos_nuevo resto
      else if negb (no_vacia fid_git) && negb (no_vacia unidad_constructiva)
      then datos_nuevo resto
      else registro :: datos_nuevo resto
  end.

(** The filter of [generar_txt_baja_linea]: the rows of the file BAJA. *)
Fixpoint datos_baja (datos_conductor : list fila_excel) : list fila_excel :=
  match datos_conductor with
  | [] => []
  | registro :: resto =>
      let fid_git := _extraer_campo_conductor registro "codigo_fid_git" in
      let unidad_constructiva :=
        _extraer_campo_conductor registro "unidad_constructiva" in
      if no_vacia fid_git && negb (no_vacia unidad_constructiva)
      then registro :: datos_baja resto
      else datos_baja resto
  end.

End FileGenerator.

(** ** generadores: TXTNormaGenerator, the merge with the database *)

Module TXTNormaGenerator.
Import Py.

(** A value of a column of the database: NULL, a text or a number. *)
Inductive dbval : Type :=
  | DNull
  | DTexto (s : string)
  | DNumero (z : Z).

(** [str(v or '')] *)
Definition str_o_vacio (v : dbval) : string :=
  match v with
  | DNull => ""
  | DTexto s => s
  | DNumero z => if (z =? 0)%Z then "" else str_Z z
  end.

(** The reference database, as the generator sees it.  A lookup that
    raises is [None]; [_consultar_norma_oracle] catches its own errors and
    gives the empty dictionary. *)
Record oracle : Type := {
  test_connection : bool;
  obtener_fid_desde_codigo_operativo : string -> option string;
  obtener_fid_desde_enlace : string -> option string;
  _consultar_norma_oracle : string -> gmap string dbval
}.

Definition campos_orden : list string :=
  ["NORMA"; "GRUPO"; "CIRCUITO"; "CODIGO_TRAFO"; "MACRONORMA"; "CANTIDAD";
   "TIPO_ADECUACION"].

(** [str(d.get(campo, '') or '').strip()] *)
Definition valor_excel (reg : gmap string pyval) (campo : string) : string :=
  let v := get reg campo in strip (if truthy v then str v else "").

Definition valor_bd (datos_bd : gmap string dbval) (campo : string) : string :=
  strip (str_o_vacio (default (DTexto "") (datos_bd !! campo))).

(** [{c: str(reg.get(c, '') or '').strip() for c in campos_orden}] *)
Definition reg_out_inicial (reg : gmap string pyval) : gmap string string :=
  foldl (fun m c => <[c := valor_excel reg c]> m) ∅ campos_orden.

(** The merge of a BAJA: [if val_bd: reg_out[campo] = val_bd]. *)
Definition merge_baja (datos_bd : gmap string dbval) (reg_out : gmap string string)
  : gmap string string :=
  foldl (fun m campo =>
           let val_bd := valor_bd datos_bd campo in
           if no_vacia val_bd then <[campo := val_bd]> m else m)
        reg_out campos_orden.

(** The validation of a row that is not a BAJA:
    [if val_bd and val_excel != val_bd: reg_out[campo] = val_bd]. *)
Definition merge_validacion (datos_bd : gmap string dbval)
    (reg_out : gmap string string) : gmap string string :=
  foldl (fun m campo =>
           let val_excel := default "" (m !! campo) in
           let val_bd := valor_bd datos_bd campo in
           if no_vacia val_bd && negb (String.eqb val_excel val_bd)
           then <[campo := val_bd]> m else m)
        reg_out campos_orden.

(** The body of the loop of [_escribir_txt_norma] for one row, up to the
    end of the reconciliation: the dictionary [reg_out]. *)
Definition reconciliar (db : oracle) (bajas : gmap string string)
    (reg : gmap string pyval) : option (gmap string string) :=
  let reg_out := reg_out_inicial reg in
  enlace ← como_str (get reg "ENLACE");
  let enlace_upper := upper (strip enlace) in
  let codigo_op := default "" (bajas !! enlace_upper) in
  let oracle_disponible := test_connection db in
  if no_vacia codigo_op && oracle_disponible then
    match obtener_fid_desde_codigo_operativo db codigo_op with
    | Some fid_real =>
        if no_vacia fid_real then
          let datos_bd := _consultar_norma_oracle db fid_real in
          if bool_decide (datos_bd = ∅) then Some reg_out
          else Some (merge_baja datos_bd reg_out)
        else Some reg_out
    | None => Some reg_out
    end
  else if no_vacia enlace_upper && oracle_disponible then
    match obtener_fid_desde_enlace db enlace_upper with
    | Some fid =>
        if no_vacia fid then
          let datos_bd := _consultar_norma_oracle db fid in
          if bool_decide (datos_bd = ∅) then Some reg_out
          else Some (merge_validacion datos_bd reg_out)
        else Some reg_out
    | None => Some reg_out
    end
  else Some reg_out.

End TXTNormaGenerator.

(** ** generadores_nuevo: FileManager, validation before the file is written *)

Module FileManager.
Import Py.

(** An entry of the list of errors. *)
Record error : Type := {
  archivo : string;
  hoja : string;
  fila : nat;
  descripcion : string
}.

(** [_add_err], on the list [self.errores_acumulados]. *)
Definition _add_err (errores_acumulados : list error) (fila : nat)
    (descripcion : string) : list error :=
  errores_acumulados ++
  [ {| archivo := "Excel"; hoja := "Estructuras_N1-N2-N3"; fila := fila;
       descripcion := descripcion |} ].

(** [idx_map[i] if i < len(idx_map) else i] *)
Definition idx_de (idx_map : list nat) (i : nat) : nat :=
  default i (idx_map !! i).

(** [s.lstrip(chr(0xFEFF))]: the byte order mark is the three bytes 239, 187,
    191. *)
Fixpoint lstrip_bom (n : nat) (s : string) : string :=
  match n with
  | O => s
  | S n' =>
      match s with
      | String a (String b (String c s')) =>
          if (code a =? 239)%nat && (code b =? 187)%nat && (code c =? 191)%nat
          then lstrip_bom n' s' else s
      | _ => s
      end
  end.

Definition sin_bom (s : string) : string := lstrip_bom (String.length s) s.

(** The loop over ['Identificador', 'ENLACE', 'Enlace'] on the raw row. *)
Fixpoint enlace_crudo (raw_row : gmap string pyval) (literales : list string)
  : string :=
  match literales with
  | [] => ""
  | literal :: literales' =>
      match raw_row !! literal with
      | Some PNone | Some (PStr "") | None => enlace_crudo raw_row literales'
      | Some v => strip (sin_bom (str v))
      end
  end.

(** The value [enlace_raw] of a row. *)
Definition enlace_de (raw_datos_excel : list (gmap string pyval)) (idx_excel : nat)
    (registro : gmap string pyval) : string :=
  let enlace_raw :=
    match raw_datos_excel !! idx_excel with
    | Some raw_row => enlace_crudo raw_row ["Identificador"; "ENLACE"; "Enlace"]
    | None => ""
    end in
  if no_vacia enlace_raw then enlace_raw
  else strip (str (get registro "ENLACE")).

Definition msg_enlace_vacio (fila_excel : nat) : string :=
  "el Enlace/Identificador de la linea " +:+ str_nat fila_excel
  +:+ " se encuentra vacio, por favor corrijalo para hacer el cargue masivo".

Definition msg_enlace_sin_P (fila_excel : nat) : string :=
  "el Enlace/Identificador de la linea " +:+ str_nat fila_excel
  +:+ " debe empezar por P".

Definition msg_enlace_repetido (f1 f2 : nat) (enlace_raw : string) : string :=
  "no pueden haber dos enlaces/identificadores iguales: fila " +:+ str_nat f1
  +:+ " y fila " +:+ str_nat f2 +:+ " con '" +:+ enlace_raw +:+ "'".

Definition msg_uc_vacia (fila_excel : nat) : string :=
  "la Unidad Constructiva de la linea " +:+ str_nat fila_excel
  +:+ " se encuentra vacia, por favor corrijala para hacer el cargue masivo".

Definition msg_uc_sin_N (fila_excel : nat) : string :=
  "la Unidad Constructiva de la linea " +:+ str_nat fila_excel
  +:+ " debe empezar por N".

(** The first loop of [_validaciones_txt_especificas], from the row of
    index [i]: the dictionary [vistos], the accumulated errors and the rows,
    whose ENLACE is written when it is accepted. *)
Fixpoint validar_enlaces (raw_datos_excel : list (gmap string pyval))
    (idx_map : list nat) (i : nat) (datos_finales : list (gmap string pyval))
    (vistos : gmap string nat) (errores : list error)
  : list (gmap string pyval) * list error :=
  match datos_finales with
  | [] => ([], errores)
  | registro :: resto =>
      let idx_excel := idx_de idx_map i in
      let fila_excel := idx_excel + 2 in
      let enlace_raw := enlace_de raw_datos_excel idx_excel registro in
      let sigue registro vistos errores :=
        let '(resto', errores') :=
          validar_enlaces raw_datos_excel idx_map (S i) resto vistos errores in
        (registro :: resto', errores') in
      if negb (no_vacia enlace_raw) then
        sigue registro vistos (_add_err errores fila_excel (msg_enlace_vacio fila_excel))
      else if negb (startswith "P" enlace_raw) then
        sigue registro vistos (_add_err errores fila_excel (msg_enlace_sin_P fila_excel))
      else
        match vistos !! enlace_raw with
        | Some f1 =>
            sigue registro vistos
              (_add_err errores fila_excel (msg_enlace_repetido f1 fila_excel enlace_raw))
        | None =>
            sigue (<["ENLACE" := PStr enlace_raw]> registro)
                  (<[enlace_raw := fila_excel]> vistos) errores
        end
  end.

(** [uc_raw] of a row: ['' if uc_val is None else
    str(uc_val).lstrip(chr(0xFEFF)).strip()]. *)
Definition uc_de (registro : gmap string pyval) : string :=
  match get registro "UC" with
  | PNone => ""
  | uc_val => strip (sin_bom (str uc_val))
  end.

(** The second loop, over the construction units. *)
Fixpoint validar_uc (idx_map : list nat) (i : nat)
    (datos_finales : list (gmap string pyval)) (errores : list error)
  : list error :=
  match datos_finales with
  | [] => errores
  | registro :: resto =>
      let idx_excel := idx_de idx_map i in
      let fila_excel := idx_excel + 2 in
      let uc_raw := uc_de registro in
      if negb (no_vacia uc_raw) then
        validar_uc idx_map (S i) resto
          (_add_err errores fila_excel (msg_uc_vacia fila_excel))
      else if negb (startswith "N" uc_raw) then
        validar_uc idx_map (S i) resto
          (_add_err errores fila_excel (msg_uc_sin_N fila_excel))
      else validar_uc idx_map (S i) resto errores
  end.

(** [_validaciones_txt_especificas]: the list returned, the rows after the
    call and [self.errores_acumulados] after the call. *)
Definition _validaciones_txt_especificas (errores_acumulados : list error)
    (datos_finales raw_datos_excel : list (gmap string pyval)) (idx_map : list nat)
  : list error * list (gmap string pyval) * list error :=
  let '(datos_finales', errores) :=
    validar_enlaces raw_datos_excel idx_map 0 datos_finales ∅ errores_acumulados in
  let errores := validar_uc idx_map 0 datos_finales' errores in
  (errores, datos_finales', errores).

(** [ejecutar_validaciones_integradas]; [errores_datos] is the list that
    [ValidadorMaestro.validar_solo_datos] returns for the rows. *)
Definition ejecutar_validaciones_integradas (errores_datos : list error)
    (datos_finales raw_datos_excel : list (gmap string pyval)) (idx_map : list nat)
  : list error * list (gmap string pyval) :=
  let '(errores_adicionales, datos_finales', errores_acumulados) :=
    _validaciones_txt_especificas [] datos_finales raw_datos_excel idx_map in
  (errores_datos ++ errores_adicionales ++ errores_acumulados, datos_finales').

(** [_get_encabezados_txt] *)
Definition _get_encabezados_txt (tipo_archivo : string) : list string :=
  if String.eqb tipo_archivo "estructuras_baja" then
    ["COORDENADA_X"; "COORDENADA_Y";
     "UBICACION"; "ESTADO"; "CODIGO_MATERIAL"; "FECHA_INSTALACION";
     "FECHA_OPERACION"; "PROYECTO"; "EMPRESA"; "OBSERVACIONES";
     "CLASIFICACION_MERCADO"; "TIPO_PROYECTO"; "ID_MERCADO"; "UC";
     "ESTADO_SALUD"; "OT_MAXIMO"; "CODIGO_MARCACION"; "SALINIDAD";
     "ENLACE";
     "GRUPO"; "TIPO"; "CLASE"; "USO"; "TIPO_ADECUACION";
     "PROPIETARIO"; "PORCENTAJE_PROPIEDAD"]
  else
    ["COORDENADA_X"; "COORDENADA_Y";
     "UBICACION"; "ESTADO"; "CODIGO_MATERIAL"; "FECHA_INSTALACION";
     "FECHA_OPERACION"; "PROYECTO"; "EMPRESA"; "OBSERVACIONES";
     "CLASIFICACION_MERCADO"; "TIPO_PROYECTO"; "ID_MERCADO"; "UC";
     "ESTADO_SALUD"; "OT_MAXIMO"; "CODIGO_MARCACION"; "SALINIDAD";
     "FID_ANTERIOR";
     "GRUPO"; "TIPO"; "CLASE"; "USO"; "TIPO_ADECUACION";
     "PROPIETARIO"; "PORCENTAJE_PROPIEDAD"].

(** The dictionary [resultado]. *)
Record resultado : Type := {
  exito : bool;
  archivo_generado : option string;
  ruta_archivo : option string;
  total_registros : nat;
  errores_validacion : list error;
  mensaje : string
}.

(** The fields of [self.proceso] that the method writes. *)
Record proceso : Type := {
  errores : list error;
  estado : string
}.

(** The files of the output directory: path and lines. *)
Definition archivos : Type := list (string * list string).

(** A line of the file: [str(valor) if valor is not None else ''] for each
    column, joined by the bar. *)
Definition linea (campos_orden : list string) (registro : gmap string pyval)
  : string :=
  String.concat "|"
    (map (fun campo =>
            match get registro campo with
            | PNone => ""
            | valor => str valor
            end) campos_orden).

(** [generar_archivo_txt_coordinado], from its step 4 on.  [datos_finales]
    is the result of [_get_datos_completos] and [_preparar_datos_finales]
    (the same number of rows), [raw_datos_excel] the rows read again from
    the sheet, [errores_datos] the errors of [ValidadorMaestro], [filename]
    the name that [generar_nombre_archivo_con_indice] gives and [base_path]
    the output directory. *)
Definition generar_archivo_txt_coordinado (tipo_archivo : string)
    (datos_finales raw_datos_excel : list (gmap string pyval))
    (errores_datos : list error) (filename base_path : string)
    (p : proceso) (fs : archivos)
  : resultado * proceso * archivos :=
  match datos_finales with
  | [] =>
      ({| exito := false; archivo_generado := None; ruta_archivo := None;
          total_registros := 0; errores_validacion := [];
          mensaje := "Error generando archivo TXT: "
                     +:+ "No hay datos transformados para generar archivo TXT" |},
       p, fs)
  | _ =>
      let idx_map := seq 0 (length datos_finales) in
      let '(errores_validacion, datos_finales) :=
        ejecutar_validaciones_integradas errores_datos datos_finales
          raw_datos_excel idx_map in
      match errores_validacion with
      | _ :: _ =>
          ({| exito := false; archivo_generado := None; ruta_archivo := None;
              total_registros := 0; errores_validacion := errores_validacion;
              mensaje := "Se encontraron "
                         +:+ str_nat (length errores_validacion)
                         +:+ " errores de validación" |},
           {| errores := errores_validacion; estado := "ERROR" |}, fs)
      | [] =>
          let filepath := base_path +:+ "/" +:+ filename in
          let encabezados := _get_encabezados_txt tipo_archivo in
          let campos_orden := encabezados in
          let contenido :=
            String.concat "|" encabezados :: map (linea campos_orden) datos_finales in
          ({| exito := true; archivo_generado := Some filename;
              ruta_archivo := Some filepath;
              total_registros := length datos_finales;
              errores_validacion := [];
              mensaje := "Archivo " +:+ filename +:+ " generado exitosamente con "
                         +:+ str_nat (length datos_finales) +:+ " registros" |},
           p, fs ++ [(filepath, contenido)])
      end
  end.

End FileManager.

(** ** Predicates of the statements *)

Module Pred.
Import Py Re Fechas.

(** A string that does not start with white space. *)
Definition inicio_ok (u : string) : bool :=
  match u with
  | "" => true
  | String c _ => negb (is_space c)
  end.

(** Exactly two digits, a bar, two digits, a bar and four digits. *)
Definition es_fecha_ddmmyyyy (s : string) : bool :=
  match leer [is_digit; is_digit; chr "/"; is_digit; is_digit; chr "/";
              is_digit; is_digit; is_digit; is_digit] s with
  | Some (_, "") => true
  | _ => false
  end.

Definition dos_digitos (s : string) : bool :=
  match s with
  | String a (String b "") => is_digit a && is_digit b
  | _ => false
  end.

Definition cuatro_digitos (s : string) : bool :=
  match s with
  | String a (String b (String c (String d ""))) =>
      is_digit a && is_digit b && is_digit c && is_digit d
  | _ => false
  end.

Definition digitos : list ascii :=
  ["0"; "1"; "2"; "3"; "4"; "5"; "6"; "7"; "8"; "9"]%char.



(** The fields on which [clasificar_estructura] calls a method of [str]. *)
Definition de_texto (r : gmap string pyval) (k : string) : bool :=
  match get r k with PStr _ => true | _ => false end.

Definition registro_de_texto (r : gmap string pyval) : bool :=
  forallb (de_texto r)
    ["PROPIETARIO"; "UC"; "NIVEL_TENSION"; "TIPO_PROYECTO"; "OBSERVACIONES"].

(** The type of a structure in the words of the specification: a code
    matching N1... is SECUNDARIO, one matching N2..., N3... or N4... is
    PRIMARIO, any other code and the empty code are SECUNDARIO. *)
Definition tipo_segun_uc (uc : string) : string :=
  if startswith "N1" uc then "SECUNDARIO"
  else if startswith "N2" uc || startswith "N3" uc || startswith "N4" uc
       then "PRIMARIO"
  else "SECUNDARIO".


(** A digit or the letter T: the characters of the project types T1, T2,
    ... *)
Definition digito_o_T (c : ascii) : bool :=
  is_digit c || Ascii.eqb c "T".

(** The field of the audit remarks of the classifier. *)
Definition campo_auditoria : string := "OBSERVACION_CLASIFICACION_SISTEMA".

(** The fields that [clasificar_estructura] can write. *)
Definition campos_clasificados : list string :=
  ["GRUPO"; "CLASE"; "USO"; "PORCENTAJE_PROPIEDAD"; "PROPIETARIO"; "TIPO";
   "TIPO_PROYECTO"; "FECHA_INSTALACION"; "FECHA_OPERACION"; "CODIGO_MATERIAL";
   "ESTADO_SALUD"; "OBSERVACIONES"; "OBSERVACION_CLASIFICACION_SISTEMA";
   "FECHA_CLASIFICACION"; "VERSION_REGLAS"].



End Pred.

(** ** Data of the scenarios *)

Module Ejemplos.
Import Py TXTNormaGenerator.

(** A database that resolves the operational code Z238163 and the link
    P200, and holds NORMA "X" with an empty CIRCUITO for both. *)
Definition datos_bd : gmap string dbval :=
  <["NORMA" := DTexto "X"]> {[ "CIRCUITO" := DTexto "" ]}.

Definition db : oracle := {|
  test_connection := true;
  obtener_fid_desde_codigo_operativo :=
    fun codigo => if String.eqb codigo "Z238163" then Some "1001" else Some "";
  obtener_fid_desde_enlace :=
    fun enlace => if String.eqb enlace "P200" then Some "2002" else Some "";
  _consultar_norma_oracle := fun _ => datos_bd
|}.

Definition bajas : gmap string string := {[ "P100" := "Z238163" ]}.

Definition norma_baja : gmap string pyval :=
  <["ENLACE" := PStr "p100"]>
    (<["NORMA" := PStr "A"]> {[ "CIRCUITO" := PStr "C1" ]}).

Definition norma_nueva : gmap string pyval :=
  <["ENLACE" := PStr "P200"]>
    (<["NORMA" := PStr "A"]> {[ "CIRCUITO" := PStr "C1" ]}).

End Ejemplos.

Module EjemplosClasificacion.
Import Py.

(** A row as [transformar_datos] hands it to the classifier: the text
    fields of the sheet and the flag of the material code. *)
Definition fila (uc fecha_instalacion fecha_operacion codigo_material
                 estado_salud tipo_proyecto : string) (del_excel : bool)
  : gmap string pyval :=
  <["UC" := PStr uc]>
    (<["FECHA_INSTALACION" := PStr fecha_instalacion]>
       (<["FECHA_OPERACION" := PStr fecha_operacion]>
          (<["CODIGO_MATERIAL" := PStr codigo_material]>
             (<["ESTADO_SALUD" := PStr estado_salud]>
                (<["TIPO_PROYECTO" := PStr tipo_proyecto]>
                   (<["_CODIGO_MATERIAL_FROM_EXCEL" := PBool del_excel]>
                      (<["PROPIETARIO" := PStr "CENS"]>
                         (<["NIVEL_TENSION" := PStr ""]>
                            {[ "OBSERVACIONES" := PStr "" ]})))))))).

(** A row whose investment type II of the sheet was converted by
    [transformar_datos] (lines 895-903): TIPO_PROYECTO and its copy both
    hold T2; the health state is the code 1. *)
Definition fila_tipo_inversion : gmap string pyval :=
  <["_TIPO_PROYECTO_EXCEL" := PStr "T2"]>
    (fila "N1P10" "" "" "" "1" "T2" true).

(** A reading of the clock, [datetime.now().isoformat()]. *)
Definition ahora : string := "2025-11-05T08:03:46".

(** The row above after one classification. *)
Definition clasificada : gmap string pyval :=
  default ∅ (ClasificadorEstructuras.clasificar_estructura
               Constantes.constantes_spec ahora fila_tipo_inversion).

(** The classified row after a second classification. *)
Definition reclasificada : gmap string pyval :=
  default ∅ (ClasificadorEstructuras.clasificar_estructura
               Constantes.constantes_spec ahora clasificada).

End EjemplosClasificacion.

Module PredArchivo.
Import Py FileManager.

(** The row of index [i] breaks a rule of the link or of the construction
    unit: the link is empty, does not start with P or repeats the link of
    an earlier row, or the construction unit is empty or does not start
    with N. *)
Definition fila_invalida (raw_datos_excel datos_finales : list (gmap string pyval))
    (i : nat) (registro : gmap string pyval) : Prop :=
  let enlace := enlace_de raw_datos_excel i registro in
  enlace = ""
  \/ startswith "P" enlace = false
  \/ (exists j anterior, j < i /\ datos_finales !! j = Some anterior
                         /\ enlace_de raw_datos_excel j anterior = enlace)
  \/ uc_de registro = ""
  \/ startswith "N" (uc_de registro) = false.

(** An entry of the list of errors for the row of index [i]. *)
Definition error_de_fila (i : nat) (e : error) : Prop :=
  fila e = i + 2 /\ hoja e = "Estructuras_N1-N2-N3" /\ archivo e = "Excel".

End PredArchivo.

Module EjemplosArchivo.
Import Py FileManager.

Definition fila_ok : gmap string pyval :=
  <["ENLACE" := PStr "P101"]> {[ "UC" := PStr "N3L75" ]}.

(** A row whose link does not start with P. *)
Definition fila_sin_P : gmap string pyval :=
  <["ENLACE" := PStr "X102"]> {[ "UC" := PStr "N2L79" ]}.

Definition proceso_inicial : proceso := {| errores := []; estado := "COMPLETADO" |}.

End EjemplosArchivo.

(** * Properties *)

Import Py Re Fechas Constantes Pred.

(** ** Strings *)

Lemma lstrip_inicio_ok s : inicio_ok (lstrip s) = true.
Proof.
  induction s as [|c s IH]; simpl; [done|].
  destruct (is_space c) eqn:E; [done|]. simpl. by rewrite E.
Qed.

Lemma lstrip_fijo u : inicio_ok u = true -> lstrip u = u.
Proof.
  destruct u as [|c u]; simpl; [done|].
  destruct (is_space c); [discriminate|done].
Qed.

Lemma rstrip_inicio_ok u : inicio_ok u = true -> inicio_ok (rstrip u) = true.
Proof.
  destruct u as [|c u]; simpl; [done|].
  intros H. destruct (rstrip u); simpl; [|done].
  destruct (is_space c) eqn:E; simpl in *; [done|]. by rewrite E.
Qed.

Lemma rstrip_idem s : rstrip (rstrip s) = rstrip s.
Proof.
  induction s as [|c s IH]; simpl; [done|].
  destruct (rstrip s) as [|b r] eqn:E.
  - destruct (is_space c) eqn:Ec; simpl; [done|]. by rewrite Ec.
  - change (rstrip (String c (String b r))) with
      (match rstrip (String b r) with
       | "" => if is_space c then "" else String c ""
       | r' => String c r'
       end).
    by rewrite IH.
Qed.

Lemma strip_idem s : strip (strip s) = strip s.
Proof.
  unfold strip.
  rewrite (lstrip_fijo (rstrip (lstrip s))).
  - apply rstrip_idem.
  - apply rstrip_inicio_ok, lstrip_inicio_ok.
Qed.

Lemma rstrip_sin_blancos s :
  all_chars (fun c => negb (is_space c)) s = true -> rstrip s = s.
Proof.
  induction s as [|c s IH]; simpl; [done|].
  intros [Hc Hs]%andb_prop. rewrite (IH Hs).
  destruct s; [|done]. by destruct (is_space c).
Qed.

Lemma strip_sin_blancos s :
  all_chars (fun c => negb (is_space c)) s = true -> strip s = s.
Proof.
  intros H. unfold strip. rewrite lstrip_fijo.
  - by apply rstrip_sin_blancos.
  - destruct s; simpl in *; [done|]. by apply andb_prop in H as [-> _].
Qed.

Lemma all_chars_impl (p q : ascii -> bool) s :
  (forall c, p c = true -> q c = true) ->
  all_chars p s = true -> all_chars q s = true.
Proof.
  intros Hpq. induction s as [|c s IH]; simpl; [done|].
  intros [Hc Hs]%andb_prop. by rewrite (Hpq _ Hc), IH.
Qed.

Lemma all_chars_app p s t :
  all_chars p (s +:+ t) = all_chars p s && all_chars p t.
Proof.
  induction s as [|c s IH]; simpl; [done|]. by rewrite IH, andb_assoc.
Qed.

(** The last character that [rstrip] leaves is not white space. *)
Lemma rstrip_final s r c :
  rstrip s = r +:+ String c "" -> is_space c = false.
Proof.
  revert r. induction s as [|a s IH]; intros r; simpl.
  - by destruct r.
  - destruct (rstrip s) as [|b r0] eqn:E.
    + destruct (is_space a) eqn:Ea; [by destruct r|].
      destruct r as [|x r]; simpl; [by intros [= <-]|].
      intros [= _ H]. by destruct r.
    + destruct r as [|x r]; simpl; [discriminate|].
      intros [= _ H]. by apply (IH r).
Qed.

Lemma digito_no_blanco c : is_digit c = true -> is_space c = false.
Proof.
  unfold is_digit, is_space, entre. destruct (code c <=? 13)%nat eqn:E1;
    destruct (28 <=? code c)%nat eqn:E2; destruct (code c <=? 32)%nat eqn:E3;
    destruct (48 <=? code c)%nat eqn:E4; rewrite ?andb_true_r, ?andb_false_r, ?orb_false_r;
    try done; intros _;
    repeat match goal with
    | H : (_ <=? _)%nat = true |- _ => apply Nat.leb_le in H
    | H : (_ <=? _)%nat = false |- _ => apply Nat.leb_gt in H
    end; try lia.
Qed.

(** ** Dates *)

Lemma primero_Some {A B} (f : A -> option B) l y :
  primero f l = Some y -> exists x, In x l /\ f x = Some y.
Proof.
  induction l as [|x l IH]; simpl; [done|].
  destruct (f x) eqn:E.
  - intros [= <-]. eauto.
  - intros H. destruct (IH H) as (z & ? & ?). eauto.
Qed.

Lemma primero_None {A B} (f : A -> option B) l :
  primero f l = None -> forall x, In x l -> f x = None.
Proof.
  induction l as [|x l IH]; simpl; [done|].
  destruct (f x) eqn:E; [done|]. intros H z [<-|Hz]; auto.
Qed.


Lemma zfill_2 n : (n < 100)%nat -> dos_digitos (zfill 2 n) = true.
Proof.
  intros H.
  assert (Hall : forallb (fun n => dos_digitos (zfill 2 n)) (seq 0 100) = true)
    by (vm_compute; reflexivity).
  rewrite forallb_forall in Hall. apply Hall, in_seq. lia.
Qed.

Lemma zfill_4 n : (n < 100 * 100)%nat -> cuatro_digitos (zfill 4 n) = true.
Proof.
  intros H.
  assert (Hall : forallb (fun n => cuatro_digitos (zfill 4 n)) (seq 0 (100 * 100)) = true)
    by (vm_compute; reflexivity).
  rewrite forallb_forall in Hall. apply Hall, in_seq. lia.
Qed.

Lemma dias_del_mes_31 y m : (dias_del_mes y m <= 31)%nat.
Proof.
  unfold dias_del_mes.
  do 12 (destruct m as [|m]; [try lia; destruct (bisiesto y); lia|]). lia.
Qed.

Lemma datetime_cotas y m d f :
  datetime y m d = Some f ->
  (1 <= anio f < 100 * 100 /\ 1 <= mes f <= 12 /\ 1 <= dia f <= 31)%nat.
Proof.
  unfold datetime. destruct (_ && _) eqn:E; [|done]. intros [= <-]. simpl.
  repeat (apply andb_prop in E as [E ?]).
  pose proof (dias_del_mes_31 y m).
  repeat match goal with
  | H : (_ <=? _)%nat = true |- _ => apply Nat.leb_le in H
  | H : (_ <? _)%nat = true |- _ => apply Nat.ltb_lt in H
  end. lia.
Qed.

Lemma strptime_cotas s fmt f :
  strptime s fmt = Some f ->
  (1 <= anio f < 100 * 100 /\ 1 <= mes f <= 12 /\ 1 <= dia f <= 31)%nat.
Proof.
  unfold strptime. destruct (re_match fmt s) as [[gs [|]]|]; try done.
  apply datetime_cotas.
Qed.

(** What [strftime('%d/%m/%Y')] prints has the form DD/MM/YYYY. *)
Lemma strftime_dmY_forma f :
  (1 <= anio f < 100 * 100 /\ 1 <= mes f <= 12 /\ 1 <= dia f <= 31)%nat ->
  es_fecha_ddmmyyyy (strftime_dmY f) = true.
Proof.
  intros (Hy & Hm & Hd). unfold strftime_dmY.
  pose proof (zfill_2 (dia f) ltac:(lia)) as H1.
  pose proof (zfill_2 (mes f) ltac:(lia)) as H2.
  pose proof (zfill_4 (anio f) ltac:(lia)) as H3.
  destruct (zfill 2 (dia f)) as [|a [|b [|]]]; try done.
  destruct (zfill 2 (mes f)) as [|c [|d [|]]]; try done.
  destruct (zfill 4 (anio f)) as [|e [|g [|h [|i [|]]]]]; try done.
  simpl in *.
  repeat match goal with
  | H : _ && _ = true |- _ => apply andb_prop in H as [? ?]
  end.
  unfold es_fecha_ddmmyyyy. simpl.
  repeat match goal with H : is_digit _ = true |- _ => rewrite H; clear H end.
  done.
Qed.

Lemma leer_cons p a s t r :
  leer (p :: a) s = Some (t, r) ->
  exists c t' s', s = String c s' /\ t = String c t' /\ p c = true
                  /\ leer a s' = Some (t', r).
Proof.
  simpl. destruct s as [|c s']; [done|].
  destruct (p c) eqn:Hp; [|done].
  destruct (leer a s') as [[t' r']|] eqn:E; [|done].
  intros [= <- <-]. eauto 10.
Qed.

Lemma leer_nil s t r : leer [] s = Some (t, r) -> t = "" /\ r = s.
Proof. simpl. by intros [= <- <-]. Qed.

Ltac inv_leer H :=
  repeat (let c := fresh "c" in let t := fresh "t" in let s := fresh "s" in
          let Hc := fresh "Hc" in
          apply leer_cons in H as (c & t & s & -> & -> & Hc & H));
  apply leer_nil in H as [? ?]; subst.

Lemma chr_eq x c : chr x c = true -> c = x.
Proof. unfold chr. by intros ?%Ascii.eqb_eq. Qed.

Lemma fecha_exacta_sin_blancos s :
  es_fecha_ddmmyyyy s = true -> strip s = s /\ es_dd_mm_yyyy s = true /\ no_vacia s = true.
Proof.
  unfold es_fecha_ddmmyyyy, es_dd_mm_yyyy.
  destruct (leer _ s) as [[t r]|] eqn:E; [|done].
  destruct r; [|done]. intros _. split; [|split; [done|]].
  - apply strip_sin_blancos. inv_leer E.
    repeat match goal with
    | H : is_digit _ = true |- _ => apply digito_no_blanco in H
    | H : chr _ _ = true |- _ => apply chr_eq in H; subst
    end.
    simpl.
    repeat match goal with H : is_space _ = false |- _ => rewrite H; clear H end.
    done.
  - inv_leer E. done.
Qed.

Lemma es_dd_mm_yyyy_strip s :
  es_dd_mm_yyyy (strip s) = true -> es_fecha_ddmmyyyy (strip s) = true.
Proof.
  unfold es_dd_mm_yyyy, es_fecha_ddmmyyyy.
  remember (strip s) as u eqn:Hu.
  destruct (leer _ u) as [[t r]|] eqn:E; [|done].
  destruct r as [|c [|]]; try done.
  intros Hc. exfalso. apply Ascii.eqb_eq in Hc. subst c.
  inv_leer E. unfold strip in Hu.
  assert (Hf : is_space "010" = false); [|done].
  match type of Hu with
  | String ?a0 (String ?a1 (String ?a2 (String ?a3 (String ?a4 (String ?a5
      (String ?a6 (String ?a7 (String ?a8 (String ?a9 _))))))))) = _ =>
      eapply (rstrip_final _
        (String a0 (String a1 (String a2 (String a3 (String a4 (String a5
          (String a6 (String a7 (String a8 (String a9 "")))))))))))
  end.
  simpl. symmetry. exact Hu.
Qed.

Lemma formatear_fecha_forma v :
  DataUtils.formatear_fecha v = ""
  \/ es_fecha_ddmmyyyy (DataUtils.formatear_fecha v) = true.
Proof.
  unfold DataUtils.formatear_fecha.
  destruct (negb (truthy v) || _) eqn:E; [by left|].
  destruct (es_dd_mm_yyyy (strip (str v))) eqn:Ef.
  - right. by apply es_dd_mm_yyyy_strip.
  - destruct v as [|b|s]; [by left|by right|].
    unfold primer_formato.
    destruct (primero _ _) as [f|] eqn:Ep; [|by left].
    right. apply primero_Some in Ep as (fmt & _ & Hf).
    eapply strftime_dmY_forma, strptime_cotas, Hf.
Qed.





Lemma digit_cases c : is_digit c = true -> In c digitos.
Proof.
  destruct c as [[] [] [] [] [] [] [] []]; vm_compute; intros H;
    try discriminate H; tauto.
Qed.


































(** ** Record router: the rows of the conductors sheet *)

Lemma no_vacia_true s : no_vacia s = true <-> s <> "".
Proof. destruct s; simpl; split; done. Qed.

Lemma no_vacia_false s : no_vacia s = false <-> s = "".
Proof. destruct s; simpl; split; done. Qed.

Lemma datos_baja_In datos r :
  In r (FileGenerator.datos_baja datos) <->
  In r datos
  /\ FileGenerator._extraer_campo_conductor r "codigo_fid_git" <> ""
  /\ FileGenerator._extraer_campo_conductor r "unidad_constructiva" = "".
Proof.
  induction datos as [|x datos IH]; simpl; [tauto|].
  destruct (no_vacia (FileGenerator._extraer_campo_conductor x "codigo_fid_git")) eqn:Ef;
    destruct (no_vacia (FileGenerator._extraer_campo_conductor x "unidad_constructiva")) eqn:Eu;
    simpl; rewrite ?IH;
    rewrite ?no_vacia_true, ?no_vacia_false in *;
    split; intros H; try (intuition (subst; auto; congruence)).
Qed.

Lemma datos_nuevo_In datos r :
  In r (FileGenerator.datos_nuevo datos) <->
  In r datos
  /\ FileGenerator._extraer_campo_conductor r "unidad_constructiva" <> "".
Proof.
  induction datos as [|x datos IH]; simpl; [tauto|].
  destruct (no_vacia (FileGenerator._extraer_campo_conductor x "codigo_fid_git")) eqn:Ef;
    destruct (no_vacia (FileGenerator._extraer_campo_conductor x "unidad_constructiva")) eqn:Eu;
    simpl; rewrite ?IH;
    rewrite ?no_vacia_true, ?no_vacia_false in *;
    split; intros H; try (intuition (subst; auto; congruence)).
Qed.

(** C1 (amended).  The two filters of the conductors sheet are disjoint: a
    row is in the file BAJA iff its previous-reference code is present and
    its construction unit is absent or empty; a row is in the file NUEVO
    iff its construction unit is present, with or without a
    previous-reference code.  A row with neither field is in neither file,
    so a row of the sheet lands in at most one of the two partitions, and
    in exactly one when it has one of the two fields. *)
Theorem C1_particion_nuevo_baja (datos : list FileGenerator.fila_excel)
    (r : FileGenerator.fila_excel) :
  let fid := FileGenerator._extraer_campo_conductor r "codigo_fid_git" in
  let uc := FileGenerator._extraer_campo_conductor r "unidad_constructiva" in
  (In r (FileGenerator.datos_baja datos) <-> In r datos /\ fid <> "" /\ uc = "")
  /\ (In r (FileGenerator.datos_nuevo datos) <-> In r datos /\ uc <> "")
  /\ ~ (In r (FileGenerator.datos_nuevo datos)
        /\ In r (FileGenerator.datos_baja datos))
  /\ (In r datos ->
      (fid = "" /\ uc = "") <->
      (~ In r (FileGenerator.datos_nuevo datos)
       /\ ~ In r (FileGenerator.datos_baja datos))).
Proof.
  intros fid uc. subst fid uc.
  rewrite datos_baja_In, datos_nuevo_In.
  destruct (FileGenerator._extraer_campo_conductor r "codigo_fid_git") eqn:Ef;
    destruct (FileGenerator._extraer_campo_conductor r "unidad_constructiva") eqn:Eu;
    intuition congruence.
Qed.

(** Witness of C1: a sheet with one row of each kind. *)
Lemma C1_particion_nuevo_baja_witness :
  let nuevo := [("Unidad Constructiva", PStr "N2L79")] in
  let repuesto := [("Código FID GIT", PStr "Z238163"); ("UC", PStr "N2L79")] in
  let baja := [("Código FID GIT", PStr "Z238163"); ("Unidad Constructiva", PStr "")] in
  let vacio := [("Calibre", PStr "2/0")] in
  let datos := [nuevo; repuesto; baja; vacio] in
  FileGenerator.datos_nuevo datos = [nuevo; repuesto]
  /\ FileGenerator.datos_baja datos = [baja]
  /\ ~ In vacio (FileGenerator.datos_nuevo datos)
  /\ ~ In vacio (FileGenerator.datos_baja datos).
Proof.
  intros nuevo repuesto baja vacio datos.
  split; [vm_compute; reflexivity|]. split; [vm_compute; reflexivity|].
  apply (proj2 (proj2 (proj2 (C1_particion_nuevo_baja datos vacio)))).
  - simpl. tauto.
  - split; vm_compute; reflexivity.
Defined.

(** Counterexample to C1 as stated: a row with neither a previous-reference
    code nor a construction unit is in the sheet and in neither of the two
    partitions. *)
Lemma C1_counterexample :
  let vacio := [("Calibre", PStr "2/0")] in
  FileGenerator._extraer_campo_conductor vacio "codigo_fid_git" = ""
  /\ FileGenerator._extraer_campo_conductor vacio "unidad_constructiva" = ""
  /\ In vacio [vacio]
  /\ ~ In vacio (FileGenerator.datos_nuevo [vacio])
  /\ ~ In vacio (FileGenerator.datos_baja [vacio]).
Proof.
  intros vacio. repeat split; try (vm_compute; reflexivity).
  - by left.
  - vm_compute. tauto.
  - vm_compute. tauto.
Qed.

(** ** Database reconciliation of the norm rows *)

Import TXTNormaGenerator.

Lemma foldl_insert_lookup (g : string -> string) l (m0 : gmap string string) k :
  foldl (fun m c => <[c := g c]> m) m0 l !! k =
  if bool_decide (k ∈ l) then Some (g k) else m0 !! k.
Proof.
  revert m0. induction l as [|c l IH]; intros m0; simpl; [done|].
  rewrite IH. destruct (decide (k = c)) as [->|Hne].
  - rewrite lookup_insert_eq. rewrite (bool_decide_eq_true_2 (c ∈ c :: l)) by left.
    by destruct (bool_decide (c ∈ l)).
  - rewrite lookup_insert_ne by done.
    destruct (bool_decide (k ∈ l)) eqn:E.
    + apply bool_decide_eq_true in E.
      by rewrite (bool_decide_eq_true_2 (k ∈ c :: l)) by (by right).
    + apply bool_decide_eq_false in E.
      rewrite (bool_decide_eq_false_2 (k ∈ c :: l)); [done|].
      rewrite elem_of_cons. tauto.
Qed.

Lemma reg_out_inicial_lookup reg campo :
  In campo campos_orden ->
  reg_out_inicial reg !! campo = Some (valor_excel reg campo).
Proof.
  intros H. unfold reg_out_inicial. rewrite foldl_insert_lookup.
  rewrite bool_decide_eq_true_2; [done|]. by apply list_elem_of_In.
Qed.

Lemma merge_baja_paso datos_bd l (m0 : gmap string string) k :
  foldl (fun m campo =>
           let val_bd := valor_bd datos_bd campo in
           if no_vacia val_bd then <[campo := val_bd]> m else m) m0 l !! k =
  if bool_decide (k ∈ l) && no_vacia (valor_bd datos_bd k)
  then Some (valor_bd datos_bd k) else m0 !! k.
Proof.
  revert m0. induction l as [|c l IH]; intros m0; simpl; [done|].
  rewrite IH. destruct (decide (k = c)) as [->|Hne].
  - rewrite (bool_decide_eq_true_2 (c ∈ c :: l)) by left. simpl.
    destruct (no_vacia (valor_bd datos_bd c)) eqn:E.
    + rewrite lookup_insert_eq, andb_true_r. by destruct (bool_decide _).
    + by rewrite andb_false_r.
  - assert (Heq : bool_decide (k ∈ c :: l) = bool_decide (k ∈ l)).
    { apply bool_decide_ext. rewrite elem_of_cons. tauto. }
    rewrite Heq. destruct (bool_decide (k ∈ l) && _); [done|].
    destruct (no_vacia (valor_bd datos_bd c)); [|done].
    by rewrite lookup_insert_ne.
Qed.

Lemma merge_validacion_paso datos_bd l (m0 : gmap string string) k :
  foldl (fun m campo =>
           let val_excel := default "" (m !! campo) in
           let val_bd := valor_bd datos_bd campo in
           if no_vacia val_bd && negb (String.eqb val_excel val_bd)
           then <[campo := val_bd]> m else m) m0 l !! k =
  if bool_decide (k ∈ l) && no_vacia (valor_bd datos_bd k)
     && negb (String.eqb (default "" (m0 !! k)) (valor_bd datos_bd k))
  then Some (valor_bd datos_bd k) else m0 !! k.
Proof.
  revert m0. induction l as [|c l IH]; intros m0; simpl; [done|].
  rewrite IH. destruct (decide (k = c)) as [->|Hne].
  - rewrite (bool_decide_eq_true_2 (c ∈ c :: l)) by left. simpl.
    destruct (no_vacia (valor_bd datos_bd c)) eqn:E; simpl.
    + destruct (String.eqb (default "" (m0 !! c)) (valor_bd datos_bd c)) eqn:E2; simpl.
      * rewrite E2, andb_false_r. done.
      * rewrite lookup_insert_eq. simpl. rewrite String.eqb_refl, andb_false_r. done.
    + by rewrite andb_false_r.
  - assert (Heq : bool_decide (k ∈ c :: l) = bool_decide (k ∈ l)).
    { apply bool_decide_ext. rewrite elem_of_cons. tauto. }
    rewrite Heq.
    destruct (no_vacia (valor_bd datos_bd c) && _); [|done].
    by rewrite lookup_insert_ne.
Qed.

(** C2.  The merge of a norm row with the database, field by field.  For a
    row that is a BAJA, resolved by its operational code, each field of the
    output is the value of the database when that value is not empty and
    the value of the spreadsheet otherwise.  For a row that is not a BAJA,
    resolved by its link, a field is replaced by the value of the database
    only when that value is not empty and differs from the value of the
    spreadsheet.  The values are compared as the code takes them, as trimmed
    text. *)
Theorem C2_reconciliacion_norma (db : oracle) (bajas : gmap string string)
    (reg : gmap string pyval) (enlace : string) (datos_bd : gmap string dbval) :
  get reg "ENLACE" = PStr enlace ->
  test_connection db = true ->
  datos_bd <> ∅ ->
  let enlace_upper := upper (strip enlace) in
  (forall codigo_op fid_real,
      bajas !! enlace_upper = Some codigo_op -> codigo_op <> "" ->
      obtener_fid_desde_codigo_operativo db codigo_op = Some fid_real ->
      fid_real <> "" ->
      _consultar_norma_oracle db fid_real = datos_bd ->
      exists reg_out,
        reconciliar db bajas reg = Some reg_out
        /\ forall campo, In campo campos_orden ->
             reg_out !! campo =
             Some (if no_vacia (valor_bd datos_bd campo)
                   then valor_bd datos_bd campo
                   else valor_excel reg campo))
  /\ (forall fid,
        default "" (bajas !! enlace_upper) = "" -> enlace_upper <> "" ->
        obtener_fid_desde_enlace db enlace_upper = Some fid ->
        fid <> "" ->
        _consultar_norma_oracle db fid = datos_bd ->
        exists reg_out,
          reconciliar db bajas reg = Some reg_out
          /\ forall campo, In campo campos_orden ->
               reg_out !! campo =
               Some (if no_vacia (valor_bd datos_bd campo)
                        && negb (String.eqb (valor_excel reg campo)
                                            (valor_bd datos_bd campo))
                     then valor_bd datos_bd campo
                     else valor_excel reg campo)
               /\ (reg_out !! campo <> Some (valor_excel reg campo) ->
                   valor_bd datos_bd campo <> ""
                   /\ valor_bd datos_bd campo <> valor_excel reg campo)).
Proof.
  intros He Hcon Hbd enlace_upper. subst enlace_upper. split.
  - intros codigo_op fid_real Hb Hcod Hfid Hne Hdatos.
    unfold reconciliar. rewrite He. simpl. rewrite Hb. simpl.
    apply no_vacia_true in Hcod. apply no_vacia_true in Hne.
    rewrite Hcod, Hcon, Hfid, Hne, Hdatos. simpl.
    rewrite bool_decide_eq_false_2 by done.
    eexists. split; [reflexivity|]. intros campo Hin.
    unfold merge_baja. rewrite merge_baja_paso.
    rewrite bool_decide_eq_true_2 by (by apply list_elem_of_In).
    cbn [andb].
    destruct (no_vacia (valor_bd datos_bd campo)); [done|].
    by apply reg_out_inicial_lookup.
  - intros fid Hb Hen Hfid Hne Hdatos.
    unfold reconciliar. rewrite He. simpl. rewrite Hb. simpl.
    apply no_vacia_true in Hen. apply no_vacia_true in Hne.
    rewrite Hen, Hcon, Hfid, Hne, Hdatos. simpl.
    rewrite bool_decide_eq_false_2 by done.
    eexists. split; [reflexivity|]. intros campo Hin.
    unfold merge_validacion. rewrite merge_validacion_paso.
    rewrite bool_decide_eq_true_2 by (by apply list_elem_of_In).
    rewrite (reg_out_inicial_lookup reg campo Hin).
    change (default "" (Some (valor_excel reg campo))) with (valor_excel reg campo).
    cbn [andb].
    destruct (no_vacia (valor_bd datos_bd campo)) eqn:E1; cbn [andb negb].
    + destruct (String.eqb (valor_excel reg campo) (valor_bd datos_bd campo)) eqn:E2;
        cbn [andb negb].
      * split; [done|]. intros H. done.
      * split; [done|]. intros _. apply no_vacia_true in E1.
        apply String.eqb_neq in E2. split; [done|congruence].
    + split; [done|]. intros H. done.
Qed.

(** Witness of C2, the scenario of the specification: the database gives
    NORMA "X" and an empty CIRCUITO; the merged row keeps the CIRCUITO of
    the spreadsheet and takes NORMA "X", for a BAJA and for a row resolved
    by its link. *)
Lemma C2_reconciliacion_norma_witness :
  (exists reg_out,
      reconciliar Ejemplos.db Ejemplos.bajas Ejemplos.norma_baja = Some reg_out
      /\ reg_out !! "NORMA" = Some "X" /\ reg_out !! "CIRCUITO" = Some "C1")
  /\ (exists reg_out,
        reconciliar Ejemplos.db Ejemplos.bajas Ejemplos.norma_nueva = Some reg_out
        /\ reg_out !! "NORMA" = Some "X" /\ reg_out !! "CIRCUITO" = Some "C1").
Proof.
  assert (Hbd : Ejemplos.datos_bd <> ∅) by apply insert_non_empty.
  split.
  - destruct (C2_reconciliacion_norma Ejemplos.db Ejemplos.bajas
                Ejemplos.norma_baja "p100" Ejemplos.datos_bd
                eq_refl eq_refl Hbd) as [H _].
    destruct (H "Z238163" "1001") as (reg_out & Hr & Hc);
      [reflexivity|discriminate|reflexivity|discriminate|reflexivity|].
    exists reg_out. split; [exact Hr|]. split.
    + rewrite (Hc "NORMA") by (simpl; tauto). reflexivity.
    + rewrite (Hc "CIRCUITO") by (simpl; tauto). reflexivity.
  - destruct (C2_reconciliacion_norma Ejemplos.db Ejemplos.bajas
                Ejemplos.norma_nueva "P200" Ejemplos.datos_bd
                eq_refl eq_refl Hbd) as [_ H].
    destruct (H "2002") as (reg_out & Hr & Hc);
      [reflexivity|discriminate|reflexivity|discriminate|reflexivity|].
    exists reg_out. split; [exact Hr|]. split.
    + rewrite (proj1 (Hc "NORMA" ltac:(simpl; tauto))). reflexivity.
    + rewrite (proj1 (Hc "CIRCUITO" ltac:(simpl; tauto))). reflexivity.
Defined.

(** ** The classifier *)

Import ClasificadorEstructuras.

Section Clasificacion.

Variable K : constantes.

Lemma regla_fechas_otro registro rc k :
  k <> "FECHA_OPERACION" -> k <> "FECHA_INSTALACION" ->
  regla_fechas registro rc !! k = rc !! k.
Proof.
  intros H1 H2. unfold regla_fechas.
  destruct (truthy _); [|done]. by rewrite !lookup_insert_ne.
Qed.

Lemma regla_codigo_material_otro registro uc rc k :
  k <> "CODIGO_MATERIAL" ->
  regla_codigo_material K registro uc rc !! k = rc !! k.
Proof.
  intros H. unfold regla_codigo_material.
  repeat (case_match; try done); by rewrite lookup_insert_ne.
Qed.

Lemma regla_estado_salud_otro registro rc k :
  k <> "ESTADO_SALUD" ->
  regla_estado_salud K registro rc !! k = rc !! k.
Proof.
  intros H. unfold regla_estado_salud.
  case_match; [|done]. by rewrite lookup_insert_ne.
Qed.

(** The shape of a successful classification. *)
Lemma clasificar_inv ahora registro r' :
  clasificar_estructura K ahora registro = Some r' ->
  exists propietario uc_excel nivel_excel proyecto observaciones_excel,
    _clasificar_propietario (get registro "PROPIETARIO") = Some propietario
    /\ get registro "UC" = PStr uc_excel
    /\ get registro "NIVEL_TENSION" = PStr nivel_excel
    /\ regla_tipo_proyecto K registro (strip nivel_excel) (strip uc_excel)
       = Some proyecto
    /\ get registro "OBSERVACIONES" = PStr observaciones_excel
    /\ let tipo := _clasificar_tipo_por_uc K (upper (strip uc_excel)) in
       let rc :=
         regla_estado_salud K registro
           (regla_codigo_material K registro (strip uc_excel)
              (regla_fechas registro
                 (<["TIPO_PROYECTO" := PStr proyecto.1.1]>
                    (<["TIPO" := PStr tipo]>
                       (<["PROPIETARIO" := PStr propietario]>
                          (<["PORCENTAJE_PROPIEDAD" := PStr "100"]>
                             (<["USO" := PStr "DISTRIBUCION ENERGIA"]>
                                (<["CLASE" := PStr "POSTE"]>
                                   (<["GRUPO" := PStr "ESTRUCTURAS EYT"]>
                                      registro))))))))) in
       r' =
       <["VERSION_REGLAS" := PStr "2.5"]>
         (<["FECHA_CLASIFICACION" := PStr ahora]>
            (<["OBSERVACION_CLASIFICACION_SISTEMA" :=
                 PStr (String.concat "; "
                         (observaciones K registro rc tipo (strip uc_excel)
                            proyecto.1.2 proyecto.2))]>
               (if negb (no_vacia (strip observaciones_excel))
                then <["OBSERVACIONES" := PStr ""]> rc else rc))).
Proof.
  unfold clasificar_estructura.
  destruct (_clasificar_propietario _) as [propietario|] eqn:Ep; [|done].
  cbn [mbind option_bind].
  destruct (get registro "UC") as [| |uc_excel] eqn:Euc; try done.
  cbn [como_str mbind option_bind].
  destruct (get registro "NIVEL_TENSION") as [| |nivel_excel] eqn:En; try done.
  cbn [como_str mbind option_bind].
  destruct (regla_tipo_proyecto _ _ _ _) as [proyecto|] eqn:Et; [|done].
  cbn [mbind option_bind].
  destruct (get registro "OBSERVACIONES") as [| |observaciones_excel] eqn:Eo; try done.
  cbn [como_str mbind option_bind].
  intros [= <-]. exists propietario, uc_excel, nivel_excel, proyecto, observaciones_excel.
  repeat split; done.
Qed.

End Clasificacion.

Ltac otros_campos :=
  repeat first
    [ rewrite lookup_insert_ne by done
    | rewrite regla_estado_salud_otro by done
    | rewrite regla_codigo_material_otro by done
    | rewrite regla_fechas_otro by done ].

Ltac ver_campo :=
  cbv zeta;
  otros_campos;
  try (match goal with
       | |- context [if negb (no_vacia ?x) then _ else _] =>
           destruct (negb (no_vacia x))
       end; otros_campos).

Section Clasificacion_tipo.

Variable K : constantes.

Lemma de_texto_get r k : de_texto r k = true -> exists s, get r k = PStr s.
Proof. unfold de_texto. destruct (get r k); try done. eauto. Qed.

(** The classifier returns a record for every row whose text fields are
    strings. *)
Lemma clasificar_total ahora registro :
  registro_de_texto registro = true ->
  exists r', clasificar_estructura K ahora registro = Some r'.
Proof.
  unfold registro_de_texto. simpl.
  intros H. repeat (apply andb_prop in H as [?%de_texto_get H]).
  repeat match goal with H : exists _, _ |- _ => destruct H as [? H] end.
  unfold clasificar_estructura, _clasificar_propietario, regla_tipo_proyecto.
  repeat match goal with H : get _ _ = _ |- _ => rewrite H; clear H end.
  cbn [como_str mbind option_bind].
  destruct (negb (truthy _)); cbn [mbind option_bind];
    destruct (no_vacia (_generar_tipo_proyecto_desde_nivel_tension _ _));
    cbn [mbind option_bind]; eauto.
Qed.

Lemma clasificar_TIPO ahora registro r' :
  clasificar_estructura K ahora registro = Some r' ->
  exists uc, get registro "UC" = PStr uc
    /\ r' !! "TIPO" = Some (PStr (_clasificar_tipo_por_uc K (upper (strip uc)))).
Proof.
  intros (p & uc & nv & pr & ob & Hp & Huc & Hnv & Hpr & Hob & ->)%clasificar_inv.
  exists uc. split; [done|]. ver_campo; by rewrite lookup_insert_eq.
Qed.

Lemma coincide_2 x y u :
  coincide [chr x; chr y] u = startswith (String x (String y "")) u.
Proof.
  unfold coincide. destruct u as [|a [|b u]]; cbn [leer startswith]; unfold chr.
  - done.
  - rewrite (Ascii.eqb_sym x a). destruct (Ascii.eqb a x); done.
  - rewrite (Ascii.eqb_sym x a), (Ascii.eqb_sym y b).
    destruct (Ascii.eqb a x), (Ascii.eqb b y); done.
Qed.

Lemma cls_2_4 b :
  cls "2" "4" b = Ascii.eqb b "2" || Ascii.eqb b "3" || Ascii.eqb b "4".
Proof.
  destruct (Ascii.eqb b "2") eqn:E2; [apply Ascii.eqb_eq in E2; by subst|].
  destruct (Ascii.eqb b "3") eqn:E3; [apply Ascii.eqb_eq in E3; by subst|].
  destruct (Ascii.eqb b "4") eqn:E4; [apply Ascii.eqb_eq in E4; by subst|].
  apply Ascii.eqb_neq in E2, E3, E4.
  unfold cls, entre. change (code "2") with 50%nat. change (code "4") with 52%nat.
  destruct (50 <=? code b)%nat eqn:L1; [|done].
  destruct (code b <=? 52)%nat eqn:L2; [|done]. exfalso.
  apply Nat.leb_le in L1, L2.
  assert (Hb : b = ascii_of_nat (code b))
    by (unfold code; by rewrite ascii_nat_embedding).
  assert (code b = 50 \/ code b = 51 \/ code b = 52)%nat as [Hn|[Hn|Hn]] by lia;
    rewrite Hn in Hb; subst b; done.
Qed.

Lemma coincide_N_2_4 u :
  coincide [chr "N"; cls "2" "4"] u =
  startswith "N2" u || startswith "N3" u || startswith "N4" u.
Proof.
  unfold coincide. destruct u as [|a [|b u]]; cbn [leer startswith]; unfold chr.
  - done.
  - rewrite (Ascii.eqb_sym "N" a). destruct (Ascii.eqb a "N"); done.
  - rewrite (Ascii.eqb_sym "N" a), (Ascii.eqb_sym "2" b), (Ascii.eqb_sym "3" b),
      (Ascii.eqb_sym "4" b), cls_2_4.
    destruct (Ascii.eqb a "N"); [|done].
    destruct (Ascii.eqb b "2"), (Ascii.eqb b "3"), (Ascii.eqb b "4"); done.
Qed.

Lemma tipo_por_uc_spec uc :
  REGLAS_PRIORITARIAS K = REGLAS_PRIORITARIAS_spec ->
  VALOR_DEFECTO_TIPO K = VALOR_DEFECTO_TIPO_spec ->
  _clasificar_tipo_por_uc K uc = tipo_segun_uc uc.
Proof.
  intros H1 H2. unfold _clasificar_tipo_por_uc, tipo_segun_uc.
  rewrite H1, H2. unfold REGLAS_PRIORITARIAS_spec, VALOR_DEFECTO_TIPO_spec.
  cbn [primera_regla PATRON TIPO].
  rewrite coincide_2, coincide_N_2_4.
  destruct uc as [|a u]; [done|]. cbn [no_vacia negb].
  destruct (startswith "N1" _); [done|].
  destruct (_ || _); done.
Qed.

End Clasificacion_tipo.

(** C3.  With the type rules of the specification, the TIPO of a
    classified record is a function of the construction unit alone: the
    trimmed, upper-cased code gives SECUNDARIO when it matches N1...,
    PRIMARIO when it matches N2..., N3... or N4..., and SECUNDARIO
    otherwise (also when it is empty); two records with the same
    construction unit get the same TIPO whatever their other fields. *)
Theorem C3_tipo_por_uc (K : constantes) (ahora : string)
    (registro : gmap string pyval) :
  REGLAS_PRIORITARIAS K = REGLAS_PRIORITARIAS_spec ->
  VALOR_DEFECTO_TIPO K = VALOR_DEFECTO_TIPO_spec ->
  registro_de_texto registro = true ->
  exists r' uc,
    clasificar_estructura K ahora registro = Some r'
    /\ get registro "UC" = PStr uc
    /\ r' !! "TIPO" = Some (PStr (tipo_segun_uc (upper (strip uc))))
    /\ (tipo_segun_uc (upper (strip uc)) = "PRIMARIO"
        \/ tipo_segun_uc (upper (strip uc)) = "SECUNDARIO")
    /\ (forall ahora2 registro2 r2',
           get registro2 "UC" = get registro "UC" ->
           clasificar_estructura K ahora2 registro2 = Some r2' ->
           r2' !! "TIPO" = r' !! "TIPO").
Proof.
  intros H1 H2 Ht.
  destruct (clasificar_total K ahora registro Ht) as [r' Hr].
  destruct (clasificar_TIPO K _ _ _ Hr) as (uc & Huc & Htipo).
  exists r', uc. rewrite (tipo_por_uc_spec K _ H1 H2) in Htipo.
  repeat split; try done.
  - unfold tipo_segun_uc. destruct (startswith "N1" _); [by right|].
    destruct (_ || _); [by left|by right].
  - intros ahora2 registro2 r2' Hsame Hr2.
    destruct (clasificar_TIPO K _ _ _ Hr2) as (uc2 & Huc2 & Htipo2).
    rewrite Hsame, Huc in Huc2. injection Huc2 as <-.
    rewrite Htipo2, Htipo. by rewrite (tipo_por_uc_spec K _ H1 H2).
Qed.

(** Witness of C3: a row with the construction unit "n3l75 ". *)
Lemma C3_tipo_por_uc_witness :
  exists r',
    clasificar_estructura constantes_spec "2025-11-05T08:03:46"
      (EjemplosClasificacion.fila "n3l75 " "" "" "" "" "" false) = Some r'
    /\ r' !! "TIPO" = Some (PStr "PRIMARIO").
Proof.
  destruct (C3_tipo_por_uc constantes_spec "2025-11-05T08:03:46"
              (EjemplosClasificacion.fila "n3l75 " "" "" "" "" "" false)
              eq_refl eq_refl) as (r' & uc & Hr & Huc & Htipo & _).
  - vm_compute. reflexivity.
  - exists r'. split; [exact Hr|].
    assert (uc = "n3l75 ") as -> by (vm_compute in Huc; congruence).
    exact Htipo.
Defined.

Section Clasificacion_campos.

Variable K : constantes.




Lemma clasificar_CODIGO_MATERIAL ahora registro r' :
  clasificar_estructura K ahora registro = Some r' ->
  exists uc, get registro "UC" = PStr uc
    /\ r' !! "CODIGO_MATERIAL" =
       let cm_excel :=
         DataUtils.normalizar_codigo_material (get registro "CODIGO_MATERIAL") in
       if no_vacia cm_excel then Some (PStr cm_excel)
       else if truthy (get registro "_CODIGO_MATERIAL_FROM_EXCEL")
            then registro !! "CODIGO_MATERIAL"
       else
         let codigo_material := _asignar_codigo_material K (strip uc) in
         if no_vacia codigo_material
         then Some (PStr (DataUtils.normalizar_codigo_material (PStr codigo_material)))
         else registro !! "CODIGO_MATERIAL".
Proof.
  intros (p & uc & nv & pr & ob & Hp & Huc & Hnv & Hpr & Hob & ->)%clasificar_inv.
  exists uc. split; [done|]. ver_campo.
  all: unfold regla_codigo_material; cbv zeta;
    destruct (no_vacia (DataUtils.normalizar_codigo_material _));
      [by rewrite lookup_insert_eq|];
    destruct (truthy (get registro "_CODIGO_MATERIAL_FROM_EXCEL")); cbn [negb];
      [by otros_campos|];
    destruct (no_vacia (_asignar_codigo_material K (strip uc)));
      [by rewrite lookup_insert_eq|by otros_campos].
Qed.

Lemma clasificar_ESTADO_SALUD ahora registro r' :
  clasificar_estructura K ahora registro = Some r' ->
  r' !! "ESTADO_SALUD" =
  let estado := _convertir_estado_salud K (get registro "ESTADO_SALUD") in
  if no_vacia estado then Some (PStr estado) else registro !! "ESTADO_SALUD".
Proof.
  intros (p & uc & nv & pr & ob & Hp & Huc & Hnv & Hpr & Hob & ->)%clasificar_inv.
  ver_campo.
  all: unfold regla_estado_salud; cbv zeta;
    destruct (no_vacia (_convertir_estado_salud _ _));
      [by rewrite lookup_insert_eq|by otros_campos].
Qed.

Lemma clasificar_fechas ahora registro r' k :
  clasificar_estructura K ahora registro = Some r' ->
  k = "FECHA_INSTALACION" \/ k = "FECHA_OPERACION" ->
  r' !! k =
  if truthy (get registro "FECHA_INSTALACION")
  then Some (PStr (DataUtils.formatear_fecha (get registro "FECHA_INSTALACION")))
  else registro !! k.
Proof.
  intros (p & uc & nv & pr & ob & Hp & Huc & Hnv & Hpr & Hob & ->)%clasificar_inv.
  intros [-> | ->]; ver_campo.
  all: unfold regla_fechas, _formatear_fecha; cbv zeta;
    destruct (truthy (get registro "FECHA_INSTALACION"));
      [by rewrite ?lookup_insert_eq, ?(lookup_insert_ne _ "FECHA_OPERACION"),
                   ?lookup_insert_eq by done
      |by otros_campos].
Qed.

End Clasificacion_campos.




(** C5, at the failing input.  The health state "7" is not recognized:
    [_convertir_estado_salud] gives the empty string for it, but the
    classified record keeps the value "7" of the row. *)
Theorem C5_estado_salud_no_reconocido :
  _convertir_estado_salud constantes_spec (PStr "7") = ""
  /\ exists r',
       clasificar_estructura constantes_spec "2025-11-05T08:03:46"
         (EjemplosClasificacion.fila "N3L75" "" "" "" "7" "" false) = Some r'
       /\ r' !! "ESTADO_SALUD" = Some (PStr "7").
Proof.
  split; [vm_compute; reflexivity|].
  destruct (clasificar_total constantes_spec "2025-11-05T08:03:46"
              (EjemplosClasificacion.fila "N3L75" "" "" "" "7" "" false)
              eq_refl) as [r' Hr].
  exists r'. split; [exact Hr|].
  rewrite (clasificar_ESTADO_SALUD _ _ _ _ Hr). vm_compute. reflexivity.
Qed.

(** The recognized health states are converted. *)
Lemma estados_salud_reconocidos :
  _convertir_estado_salud constantes_spec (PStr "1") = "BUENO"
  /\ _convertir_estado_salud constantes_spec (PStr "2") = "REGULAR"
  /\ _convertir_estado_salud constantes_spec (PStr "3") = "MALO"
  /\ _convertir_estado_salud constantes_spec (PStr "") = ""
  /\ _convertir_estado_salud constantes_spec (PStr "nan") = ""
  /\ _convertir_estado_salud constantes_spec PNone = "".
Proof. repeat split; vm_compute; reflexivity. Qed.




(** ** Validation before the file is written *)

Import FileManager PredArchivo.

Lemma idx_de_seq n j : idx_de (seq 0 n) j = j.
Proof.
  unfold idx_de. destruct (decide (j < n)) as [H|H].
  - by rewrite lookup_seq_lt.
  - by rewrite lookup_seq_ge by lia.
Qed.

Lemma _add_err_In errores fila descripcion e :
  In e errores -> In e (_add_err errores fila descripcion).
Proof. unfold _add_err. intros H. apply in_or_app. by left. Qed.

Lemma _add_err_nuevo errores i descripcion :
  exists e, In e (_add_err errores (i + 2) descripcion) /\ error_de_fila i e.
Proof.
  eexists. split.
  - unfold _add_err. apply in_or_app. right. left. reflexivity.
  - done.
Qed.

Lemma validar_enlaces_spec raw n datos i vistos errores datos' errores' :
  validar_enlaces raw (seq 0 n) i datos vistos errores = (datos', errores') ->
  (forall e, In e errores -> In e errores')
  /\ length datos' = length datos
  /\ (forall k r', datos' !! k = Some r' ->
        exists r, datos !! k = Some r /\ get r' "UC" = get r "UC")
  /\ (forall k r, datos !! k = Some r ->
        let enlace := enlace_de raw (i + k) r in
        (enlace = "" \/ startswith "P" enlace = false
         \/ is_Some (vistos !! enlace)
         \/ exists k' r0, k' < k /\ datos !! k' = Some r0
                          /\ enlace_de raw (i + k') r0 = enlace) ->
        exists e, In e errores' /\ error_de_fila (i + k) e).
Proof.
  revert i vistos errores datos' errores'.
  induction datos as [|registro resto IH]; intros i vistos errores datos' errores'.
  - simpl. intros [= <- <-]. repeat split; try done.
  - cbn [validar_enlaces]. rewrite idx_de_seq.
    set (enlace0 := enlace_de raw i registro).
    assert (Hpaso : forall registro1 vistos1 errores1,
      (forall e, In e errores -> In e errores1) ->
      (get registro1 "UC" = get registro "UC") ->
      (forall x, is_Some (vistos !! x) -> is_Some (vistos1 !! x)) ->
      ((enlace0 = "" \/ startswith "P" enlace0 = false \/ is_Some (vistos !! enlace0)) ->
        exists e, In e errores1 /\ error_de_fila i e) ->
      ((enlace0 <> "" /\ startswith "P" enlace0 = true) ->
        is_Some (vistos1 !! enlace0)) ->
      (let '(resto', errores'0) :=
         validar_enlaces raw (seq 0 n) (S i) resto vistos1 errores1 in
       (registro1 :: resto', errores'0)) = (datos', errores') ->
      (forall e, In e errores -> In e errores')
      /\ length datos' = length (registro :: resto)
      /\ (forall k r', datos' !! k = Some r' ->
            exists r, (registro :: resto) !! k = Some r /\ get r' "UC" = get r "UC")
      /\ (forall k r, (registro :: resto) !! k = Some r ->
            let enlace := enlace_de raw (i + k) r in
            (enlace = "" \/ startswith "P" enlace = false
             \/ is_Some (vistos !! enlace)
             \/ exists k' r0, k' < k /\ (registro :: resto) !! k' = Some r0
                              /\ enlace_de raw (i + k') r0 = enlace) ->
            exists e, In e errores' /\ error_de_fila (i + k) e)).
    { intros registro1 vistos1 errores1 Hmono Huc Hvis Hcero Hacepta.
      destruct (validar_enlaces raw (seq 0 n) (S i) resto vistos1 errores1)
        as [resto' errores'0] eqn:Erec.
      intros [= <- <-].
      destruct (IH _ _ _ _ _ Erec) as (IH1 & IH2 & IH3 & IH4).
      split; [by auto|]. split; [by simpl; rewrite IH2|]. split.
      - intros [|k] r'; simpl.
        + intros [= <-]. eauto.
        + apply IH3.
      - intros [|k] r; simpl.
        + intros [= <-]. rewrite Nat.add_0_r. fold enlace0.
          intros [H|[H|[H|(k' & r0 & Hlt & _)]]]; [| | |lia];
            (destruct Hcero as (e & He & Hf); [tauto|]; exists e; split; [by apply IH1|done]).
        + intros Hk Hcond.
          replace (i + S k) with (S i + k) in * by lia.
          apply (IH4 k r Hk).
          destruct Hcond as [H|[H|[H|(k' & r0 & Hlt & Hk' & Heq)]]];
            [by left|by right; left|by right; right; left; apply Hvis|].
          destruct k' as [|k'].
          * simpl in Hk'. injection Hk' as <-. rewrite Nat.add_0_r in Heq.
            fold enlace0 in Heq. rewrite <- Heq.
            destruct (decide (enlace0 = "")) as [He|He]; [by left|].
            destruct (startswith "P" enlace0) eqn:Ep; [|by right; left].
            right; right; left. by apply Hacepta.
          * right; right; right. exists k', r0. simpl in Hk'.
            replace (S i + k') with (i + S k') by lia. split; [lia|done]. }
    destruct (no_vacia enlace0) eqn:Ev; cbn [negb];
      [destruct (startswith "P" enlace0) eqn:Ep; cbn [negb];
         [destruct (vistos !! enlace0) as [f1|] eqn:Evis|]|];
      apply Hpaso; try done;
      try (by intros e; apply _add_err_In);
      try (by intros _; apply _add_err_nuevo).
    + unfold get. by rewrite lookup_insert_ne.
    + intros x [v Hv]. destruct (decide (enlace0 = x)) as [<-|Hne].
      * rewrite lookup_insert_eq. eauto.
      * rewrite lookup_insert_ne by done. eauto.
    + apply no_vacia_true in Ev.
      intros [H|[H|[v H]]]; [done|congruence|congruence].
    + intros _. rewrite lookup_insert_eq. eauto.
    + intros [_ H]. congruence.
    + apply no_vacia_false in Ev. intros [H _]. congruence.
Qed.

Lemma validar_uc_spec n datos i errores :
  (forall e, In e errores -> In e (validar_uc (seq 0 n) i datos errores))
  /\ (forall k r, datos !! k = Some r ->
        (uc_de r = "" \/ startswith "N" (uc_de r) = false) ->
        exists e, In e (validar_uc (seq 0 n) i datos errores)
                  /\ error_de_fila (i + k) e).
Proof.
  revert i errores. induction datos as [|registro resto IH]; intros i errores.
  - simpl. split; [done|]. intros k r Hk. done.
  - cbn [validar_uc]. rewrite idx_de_seq.
    assert (Hpaso : forall errores1,
      (forall e, In e errores -> In e errores1) ->
      ((uc_de registro = "" \/ startswith "N" (uc_de registro) = false) ->
        exists e, In e errores1 /\ error_de_fila i e) ->
      (forall e, In e errores ->
                 In e (validar_uc (seq 0 n) (S i) resto errores1))
      /\ (forall k r, (registro :: resto) !! k = Some r ->
            (uc_de r = "" \/ startswith "N" (uc_de r) = false) ->
            exists e, In e (validar_uc (seq 0 n) (S i) resto errores1)
                      /\ error_de_fila (i + k) e)).
    { intros errores1 Hmono Hcero.
      destruct (IH (S i) errores1) as [IH1 IH2]. split; [by auto|].
      intros [|k] r Hk Hc; simpl in Hk.
      - injection Hk as <-. rewrite Nat.add_0_r.
        destruct (Hcero Hc) as (e & He & Hf). exists e. split; [by apply IH1|done].
      - replace (i + S k) with (S i + k) by lia. by apply (IH2 k r). }
    destruct (no_vacia (uc_de registro)) eqn:Ev; cbn [negb];
      [destruct (startswith "N" (uc_de registro)) eqn:En; cbn [negb]|];
      apply Hpaso; try done;
      try (by intros e; apply _add_err_In);
      try (by intros _; apply _add_err_nuevo).
    apply no_vacia_true in Ev. intros [H|H]; congruence.
Qed.

Lemma uc_de_get r r' : get r' "UC" = get r "UC" -> uc_de r' = uc_de r.
Proof. unfold uc_de. by intros ->. Qed.

(** Every row that breaks a rule has an entry in the list that
    [ejecutar_validaciones_integradas] returns. *)
Lemma validaciones_fila_invalida errores_datos datos raw i registro :
  datos !! i = Some registro ->
  fila_invalida raw datos i registro ->
  exists e,
    In e (ejecutar_validaciones_integradas errores_datos datos raw
            (seq 0 (length datos))).1
    /\ error_de_fila i e.
Proof.
  intros Hi Hinv.
  unfold ejecutar_validaciones_integradas, _validaciones_txt_especificas.
  destruct (validar_enlaces raw (seq 0 (length datos)) 0 datos ∅ [])
    as [datos' errores1] eqn:E1.
  destruct (validar_enlaces_spec _ _ _ _ _ _ _ _ E1) as (H1 & H2 & H3 & H4).
  destruct (validar_uc_spec (length datos) datos' 0 errores1) as [U1 U2].
  cbn [fst].
  assert (Hsuf : forall e, In e (validar_uc (seq 0 (length datos)) 0 datos' errores1) ->
    In e (errores_datos ++ validar_uc (seq 0 (length datos)) 0 datos' errores1
          ++ validar_uc (seq 0 (length datos)) 0 datos' errores1)).
  { intros e He. apply in_or_app. right. apply in_or_app. by left. }
  assert (Henl : (let enlace := enlace_de raw (0 + i) registro in
                  enlace = "" \/ startswith "P" enlace = false
                  \/ is_Some ((∅ : gmap string nat) !! enlace)
                  \/ exists k' r0, k' < i /\ datos !! k' = Some r0
                                   /\ enlace_de raw (0 + k') r0 = enlace) ->
                 exists e, In e (errores_datos
                     ++ validar_uc (seq 0 (length datos)) 0 datos' errores1
                     ++ validar_uc (seq 0 (length datos)) 0 datos' errores1)
                   /\ error_de_fila i e).
  { intros Hc. destruct (H4 i registro Hi Hc) as (e & He & Hf).
    exists e. split; [by apply Hsuf, U1|done]. }
  destruct Hinv as [H|[H|[(j & anterior & Hj & Hdj & Hej)|Huc]]].
  - apply Henl. by left.
  - apply Henl. by right; left.
  - apply Henl. right; right; right. exists j, anterior. done.
  - assert (Hlt : i < length datos') by (rewrite H2; by eapply lookup_lt_Some).
    destruct (lookup_lt_is_Some_2 _ _ Hlt) as [r' Hr'].
    destruct (H3 i r' Hr') as (r & Hr & Hget).
    rewrite Hi in Hr. injection Hr as <-.
    destruct (U2 i r' Hr') as (e & He & Hf).
    { by rewrite (uc_de_get _ _ Hget). }
    exists e. split; [by apply Hsuf|done].
Qed.

(** C9.  When the validations leave any error, [generar_archivo_txt_coordinado]
    returns without success and with the list of errors, marks the process
    as failed and writes no file; the file is written only when the list is
    empty.  Every row whose link is empty, does not start with P or repeats
    an earlier link, or whose construction unit is empty or does not start
    with N, has an entry of the list with its row number (index plus 2), the
    sheet and a description, so one such row is enough to abort the batch. *)
Theorem C9_validacion_aborta (tipo_archivo : string)
    (datos_finales raw_datos_excel : list (gmap string pyval))
    (errores_datos : list error) (filename base_path : string)
    (p : proceso) (fs : archivos) :
  let r := generar_archivo_txt_coordinado tipo_archivo datos_finales
             raw_datos_excel errores_datos filename base_path p fs in
  let res := r.1.1 in
  let p' := r.1.2 in
  let fs' := r.2 in
  (errores_validacion res <> [] ->
   fs' = fs /\ exito res = false /\ archivo_generado res = None
   /\ errores p' = errores_validacion res /\ estado p' = "ERROR")
  /\ (fs' <> fs -> errores_validacion res = [] /\ exito res = true)
  /\ (errores_datos <> [] -> datos_finales <> [] ->
      errores_validacion res <> [])
  /\ (forall i registro,
         datos_finales !! i = Some registro ->
         fila_invalida raw_datos_excel datos_finales i registro ->
         fs' = fs /\ exito res = false
         /\ exists e, In e (errores_validacion res) /\ error_de_fila i e).
Proof.
  intros r res p' fs'. subst res p' fs' r.
  unfold generar_archivo_txt_coordinado.
  destruct datos_finales as [|r0 resto] eqn:Ed.
  { cbn. repeat split; try done. }
  rewrite <- Ed. clear Ed.
  pose proof (validaciones_fila_invalida errores_datos datos_finales raw_datos_excel)
    as Hfila.
  assert (Hdatos : forall e,
    In e errores_datos ->
    In e (ejecutar_validaciones_integradas errores_datos datos_finales
            raw_datos_excel (seq 0 (length datos_finales))).1).
  { intros e He. unfold ejecutar_validaciones_integradas.
    destruct (_validaciones_txt_especificas _ _ _ _) as [[a b] c].
    cbn [fst]. apply in_or_app. by left. }
  destruct (ejecutar_validaciones_integradas errores_datos datos_finales
              raw_datos_excel (seq 0 (length datos_finales)))
    as [errores_validacion datos'] eqn:Ev.
  cbn [fst] in Hfila, Hdatos.
  destruct errores_validacion as [|e0 errs]; cbn.
  - split; [done|]. split; [done|]. split.
    + intros Hne _. destruct errores_datos as [|e es]; [done|].
      destruct (Hdatos e); by left.
    + intros i registro Hi Hinv.
      destruct (Hfila i registro Hi Hinv) as (e & [] & _).
  - split; [done|]. split; [done|]. split; [done|].
    intros i registro Hi Hinv. split; [done|]. split; [done|].
    by apply (Hfila i registro).
Qed.

(** Witness of C9: a batch of two rows, the second with a link that does
    not start with P; no file is written and the list has an entry for the
    row 3 of the sheet. *)
Lemma C9_validacion_aborta_witness :
  let r := generar_archivo_txt_coordinado "estructuras_nuevo"
             [EjemplosArchivo.fila_ok; EjemplosArchivo.fila_sin_P] [] []
             "estructuras_nuevo_20251105_001.txt" "generated"
             EjemplosArchivo.proceso_inicial [] in
  r.2 = [] /\ exito r.1.1 = false
  /\ exists e, In e (errores_validacion r.1.1) /\ error_de_fila 1 e.
Proof.
  intros r.
  apply (proj2 (proj2 (proj2
           (C9_validacion_aborta "estructuras_nuevo"
              [EjemplosArchivo.fila_ok; EjemplosArchivo.fila_sin_P] [] []
              "estructuras_nuevo_20251105_001.txt" "generated"
              EjemplosArchivo.proceso_inicial []))) 1 EjemplosArchivo.fila_sin_P).
  - reflexivity.
  - right; left. vm_compute. reflexivity.
Defined.
(** ** Classifying twice *)

Lemma digito_o_T_casos c :
  digito_o_T c = true ->
  (code c =? 195)%nat = false /\ upper_ascii c = c /\ is_space c = false
  /\ valores c = 0%Z.
Proof.
  unfold digito_o_T. intros [H|H]%orb_prop.
  - apply digit_cases in H. simpl in H.
    repeat (destruct H as [<-|H]; [by vm_compute|]). destruct H.
  - apply Ascii.eqb_eq in H. subst. by vm_compute.
Qed.

Lemma upper_T s : all_chars digito_o_T s = true -> upper s = s.
Proof.
  induction s as [|c s IH]; [done|].
  intros [Hc Hs]%andb_prop. cbn [upper].
  destruct (digito_o_T_casos c Hc) as (-> & -> & _).
  by rewrite (IH Hs).
Qed.

Lemma strip_T s : all_chars digito_o_T s = true -> strip s = s.
Proof.
  intros H. apply strip_sin_blancos.
  eapply all_chars_impl; [|exact H].
  intros c Hc. by destruct (digito_o_T_casos c Hc) as (_ & _ & -> & _).
Qed.

Lemma findall_romanos_T s :
  all_chars digito_o_T s = true -> findall_romanos s "" = [].
Proof.
  induction s as [|c s IH]; [done|].
  intros [Hc Hs]%andb_prop. cbn [findall_romanos]. unfold es_romano.
  destruct (digito_o_T_casos c Hc) as (_ & _ & _ & ->). simpl. by apply IH.
Qed.

Lemma roman_loop_ceros l total :
  Forall (fun c => valores c = 0%Z) l -> roman_loop l total 0 = total.
Proof.
  intros H. revert total. induction H as [|c l Hc _ IH]; intros total; [done|].
  cbn [roman_loop]. rewrite Hc. cbv zeta.
  replace (0 <? 0)%Z with false by done. rewrite IH. lia.
Qed.

Lemma _roman_to_int_T s :
  all_chars digito_o_T s = true -> _roman_to_int s = 0%Z.
Proof.
  intros H. unfold _roman_to_int. rewrite (strip_T s H), (upper_T s H).
  apply roman_loop_ceros. apply Forall_forall. intros c Hc.
  apply list_elem_of_In, in_rev in Hc.
  revert Hc. clear -H. induction s as [|x s IH]; simpl; [done|].
  simpl in H. apply andb_prop in H as [Hx Hs].
  intros [<-|Hc]; [|by apply IH].
  by destruct (digito_o_T_casos x Hx) as (_ & _ & _ & ?).
Qed.

Lemma conversion_spec_valores romano t :
  CONVERSION_TIPO_PROYECTO_spec !! romano = Some t ->
  all_chars digito_o_T t = true /\ no_vacia t = true
  /\ all_chars digito_o_T romano = false.
Proof.
  intros H. apply elem_of_list_to_map_2 in H.
  repeat (apply elem_of_cons in H as [[= -> ->]|H]; [by vm_compute|]).
  by apply elem_of_nil in H.
Qed.

Lemma str_uint_digitos d : all_chars is_digit (NilEmpty.string_of_uint d) = true.
Proof. induction d; simpl; done. Qed.

Lemma str_Z_digitos z :
  (0 < z)%Z -> all_chars is_digit (str_Z z) = true /\ no_vacia (str_Z z) = true.
Proof.
  destruct z as [|p|p]; [lia| |lia]. intros _.
  unfold str_Z. cbn [Z.to_int NilZero.string_of_int].
  unfold NilZero.string_of_uint.
  pose proof (str_uint_digitos (Pos.to_uint p)) as H.
  destruct (Pos.to_uint p) eqn:E; simpl in *; try done.
Qed.

Section Dos_veces.

Variable K : constantes.
Hypothesis HK_conversion : CONVERSION_TIPO_PROYECTO K = CONVERSION_TIPO_PROYECTO_spec.
Hypothesis HK_estados : ESTADOS_SALUD K = ESTADOS_SALUD_spec.

Lemma _convertir_tipo_proyecto_T s :
  all_chars digito_o_T s = true -> _convertir_tipo_proyecto K s = s.
Proof.
  intros H. unfold _convertir_tipo_proyecto.
  destruct (negb (no_vacia s)); [done|]. cbv zeta.
  rewrite (strip_T s H), (upper_T s H), (findall_romanos_T s H), HK_conversion.
  destruct (CONVERSION_TIPO_PROYECTO_spec !! s) as [t|] eqn:E.
  - apply conversion_spec_valores in E as (_ & _ & E). congruence.
  - by rewrite (_roman_to_int_T s H).
Qed.

Lemma _convertir_tipo_proyecto_fijo x :
  strip x = x ->
  _convertir_tipo_proyecto K (strip (_convertir_tipo_proyecto K x))
  = _convertir_tipo_proyecto K x.
Proof.
  intros Hx.
  assert (forall t, all_chars digito_o_T t = true ->
            _convertir_tipo_proyecto K (strip t) = t) as HT.
  { intros t Ht. rewrite (strip_T t Ht). by apply _convertir_tipo_proyecto_T. }
  unfold _convertir_tipo_proyecto at 2 3.
  destruct (negb (no_vacia x)) eqn:Ev.
  - rewrite Hx. unfold _convertir_tipo_proyecto. by rewrite Ev.
  - cbv zeta. rewrite HK_conversion.
    destruct (CONVERSION_TIPO_PROYECTO_spec !! _) as [t|] eqn:E.
    + apply conversion_spec_valores in E as (E & _). by apply HT.
    + destruct (0 <? _roman_to_int _)%Z eqn:Ez.
      * apply HT. apply Z.ltb_lt, str_Z_digitos in Ez as [Ez _].
        simpl. unfold digito_o_T at 1. simpl.
        eapply all_chars_impl; [|exact Ez].
        intros c Hc. unfold digito_o_T. by rewrite Hc.
      * rewrite Hx. unfold _convertir_tipo_proyecto.
        rewrite Ev. cbv zeta. by rewrite HK_conversion, E, Ez.
Qed.

Lemma _clasificar_propietario_fijo v p :
  _clasificar_propietario v = Some p ->
  _clasificar_propietario (PStr p) = Some p.
Proof.
  unfold _clasificar_propietario at 1.
  destruct (negb (truthy v)); [by intros [= <-]|].
  destruct (como_str v) as [nombre|]; [|done]. cbn [mbind option_bind].
  repeat (destruct (alguna _ _); [by intros [= <-]|]).
  by intros [= <-].
Qed.

Lemma _convertir_estado_salud_fijo v :
  no_vacia (_convertir_estado_salud K v) = true ->
  _convertir_estado_salud K (PStr (_convertir_estado_salud K v))
  = _convertir_estado_salud K v.
Proof.
  unfold _convertir_estado_salud at 1 3 4.
  destruct (_ || _); [done|]. cbv zeta.
  destruct (en_lista _ ["BUENO"; "REGULAR"; "MALO"]) eqn:E; [|done].
  intros _. unfold en_lista in E. apply bool_decide_eq_true_1 in E.
  repeat (apply elem_of_cons in E as [->|E];
          [unfold _convertir_estado_salud; rewrite HK_estados; by vm_compute|]).
  by apply elem_of_nil in E.
Qed.

End Dos_veces.

Lemma formatear_fecha_fijo v :
  DataUtils.formatear_fecha v <> "" ->
  DataUtils.formatear_fecha (PStr (DataUtils.formatear_fecha v))
  = DataUtils.formatear_fecha v.
Proof.
  intros Hv. destruct (formatear_fecha_forma v) as [H|H]; [done|].
  apply fecha_exacta_sin_blancos in H as (Hs & Hf & Hn).
  set (f := DataUtils.formatear_fecha v) in *.
  unfold DataUtils.formatear_fecha. cbn [str]. rewrite Hs, Hf, Hn.
  destruct f; done.
Qed.
Lemma replace_sin c por s :
  all_chars (fun x => negb (Ascii.eqb x c)) s = true -> replace c por s = s.
Proof.
  induction s as [|a s IH]; simpl; [done|].
  intros [Ha Hs]%andb_prop. destruct (Ascii.eqb a c); [done|]. by rewrite IH.
Qed.

Lemma digito_no_coma c : is_digit c = true -> negb (Ascii.eqb c ",") = true.
Proof.
  intros H%digit_cases. simpl in H.
  repeat (destruct H as [<-|H]; [done|]). destruct H.
Qed.

Lemma solo_digitos_fijo s :
  DataUtils.solo_digitos s = true ->
  DataUtils.normalizar_codigo_material (PStr s) = s.
Proof.
  unfold DataUtils.solo_digitos. intros [Hn Hd]%andb_prop.
  unfold DataUtils.normalizar_codigo_material.
  rewrite (strip_sin_blancos s), Hn.
  - cbn [negb]. cbv zeta. rewrite (replace_sin "," "." s).
    + unfold DataUtils.solo_digitos. by rewrite Hn, Hd.
    + eapply all_chars_impl; [|exact Hd]. apply digito_no_coma.
  - eapply all_chars_impl; [|exact Hd].
    intros c Hc. by rewrite (digito_no_blanco c Hc).
Qed.

(** [normalizar_codigo_material] leaves its own results as they are. *)
Lemma normalizar_codigo_material_fijo v :
  DataUtils.normalizar_codigo_material
    (PStr (DataUtils.normalizar_codigo_material v))
  = DataUtils.normalizar_codigo_material v.
Proof.
  destruct v as [|[]|s]; [by vm_compute..|].
  unfold DataUtils.normalizar_codigo_material at 2 3.
  destruct (negb (no_vacia (strip s))) eqn:Ev; [by vm_compute|].
  cbv zeta.
  destruct (DataUtils.solo_digitos _) eqn:E1; [by apply solo_digitos_fijo|].
  destruct (DataUtils.entero_punto_ceros _) eqn:E2.
  - apply solo_digitos_fijo. unfold DataUtils.entero_punto_ceros in E2.
    by apply andb_prop in E2 as [E2 _].
  - unfold DataUtils.normalizar_codigo_material.
    rewrite strip_idem, Ev. cbv zeta. by rewrite E1, E2.
Qed.

Lemma get_lookup (r : gmap string pyval) k v : r !! k = Some v -> get r k = v.
Proof. unfold get. by intros ->. Qed.

Lemma get_igual (r r' : gmap string pyval) k : r' !! k = r !! k -> get r' k = get r k.
Proof. unfold get. by intros ->. Qed.

Section Campos.

Variable K : constantes.
Variable ahora : string.
Variables registro r' : gmap string pyval.
Hypothesis Hr : clasificar_estructura K ahora registro = Some r'.

Lemma clasificar_constantes :
  r' !! "GRUPO" = Some (PStr "ESTRUCTURAS EYT")
  /\ r' !! "CLASE" = Some (PStr "POSTE")
  /\ r' !! "USO" = Some (PStr "DISTRIBUCION ENERGIA")
  /\ r' !! "PORCENTAJE_PROPIEDAD" = Some (PStr "100")
  /\ r' !! "FECHA_CLASIFICACION" = Some (PStr ahora)
  /\ r' !! "VERSION_REGLAS" = Some (PStr "2.5").
Proof.
  destruct (clasificar_inv K _ _ _ Hr)
    as (p & uc & nv & pr & ob & Hp & Huc & Hnv & Hpr & Hob & ->).
  repeat split; ver_campo; by rewrite lookup_insert_eq.
Qed.

Lemma clasificar_PROPIETARIO :
  exists p, _clasificar_propietario (get registro "PROPIETARIO") = Some p
    /\ r' !! "PROPIETARIO" = Some (PStr p).
Proof.
  destruct (clasificar_inv K _ _ _ Hr)
    as (p & uc & nv & pr & ob & Hp & Huc & Hnv & Hpr & Hob & ->).
  exists p. split; [done|]. ver_campo; by rewrite lookup_insert_eq.
Qed.

Lemma clasificar_TIPO_PROYECTO :
  exists uc nv pr, get registro "UC" = PStr uc
    /\ get registro "NIVEL_TENSION" = PStr nv
    /\ regla_tipo_proyecto K registro (strip nv) (strip uc) = Some pr
    /\ r' !! "TIPO_PROYECTO" = Some (PStr pr.1.1).
Proof.
  destruct (clasificar_inv K _ _ _ Hr)
    as (p & uc & nv & pr & ob & Hp & Huc & Hnv & Hpr & Hob & ->).
  exists uc, nv, pr. repeat (split; [done|]).
  ver_campo; by rewrite lookup_insert_eq.
Qed.

Lemma clasificar_OBSERVACIONES :
  exists o, get registro "OBSERVACIONES" = PStr o
    /\ r' !! "OBSERVACIONES" =
       if negb (no_vacia (strip o)) then Some (PStr "")
       else registro !! "OBSERVACIONES".
Proof.
  destruct (clasificar_inv K _ _ _ Hr)
    as (p & uc & nv & pr & ob & Hp & Huc & Hnv & Hpr & Hob & ->).
  exists ob. split; [done|]. cbv zeta. otros_campos.
  destruct (negb (no_vacia (strip ob))); [by rewrite lookup_insert_eq|].
  by otros_campos.
Qed.

(** The classifier writes no other field. *)
Lemma clasificar_otros k :
  k ∉ campos_clasificados -> r' !! k = registro !! k.
Proof.
  intros Hk.
  destruct (clasificar_inv K _ _ _ Hr)
    as (p & uc & nv & pr & ob & Hp & Huc & Hnv & Hpr & Hob & ->).
  unfold campos_clasificados in Hk.
  repeat (apply not_elem_of_cons in Hk as [? Hk]).
  ver_campo; done.
Qed.

End Campos.
Section Segunda_pasada.

Variable K : constantes.
Hypothesis HK_conversion : CONVERSION_TIPO_PROYECTO K = CONVERSION_TIPO_PROYECTO_spec.
Hypothesis HK_estados : ESTADOS_SALUD K = ESTADOS_SALUD_spec.
Variable ahora : string.
Variables registro r1 r2 : gmap string pyval.
Hypothesis Hr1 : clasificar_estructura K ahora registro = Some r1.

Lemma clasificado_de_texto : registro_de_texto r1 = true.
Proof.
  destruct (clasificar_PROPIETARIO K _ _ _ Hr1) as (p & _ & Hp).
  destruct (clasificar_TIPO_PROYECTO K _ _ _ Hr1)
    as (uc & nv & pr & Huc & Hnv & _ & Hpr).
  destruct (clasificar_OBSERVACIONES K _ _ _ Hr1) as (o & Ho & Hobs).
  assert (get r1 "UC" = PStr uc) as Huc1.
  { rewrite <- Huc. apply get_igual.
    apply (clasificar_otros K _ _ _ Hr1); compute_done. }
  assert (get r1 "NIVEL_TENSION" = PStr nv) as Hnv1.
  { rewrite <- Hnv. apply get_igual.
    apply (clasificar_otros K _ _ _ Hr1); compute_done. }
  assert (exists o', get r1 "OBSERVACIONES" = PStr o') as [o' Ho'].
  { destruct (negb (no_vacia (strip o))).
    - exists "". by apply get_lookup.
    - exists o. rewrite <- Ho. by apply get_igual. }
  unfold registro_de_texto, de_texto. cbn [forallb].
  by rewrite (get_lookup _ _ _ Hp), Huc1, Hnv1, (get_lookup _ _ _ Hpr), Ho'.
Qed.

Hypothesis Hr2 : clasificar_estructura K ahora r1 = Some r2.

Lemma igual_UC : get r1 "UC" = get registro "UC".
Proof. apply get_igual. apply (clasificar_otros K _ _ _ Hr1); compute_done. Qed.

Lemma igual_NIVEL_TENSION : get r1 "NIVEL_TENSION" = get registro "NIVEL_TENSION".
Proof. apply get_igual. apply (clasificar_otros K _ _ _ Hr1); compute_done. Qed.

Lemma igual_bandera :
  get r1 "_CODIGO_MATERIAL_FROM_EXCEL" = get registro "_CODIGO_MATERIAL_FROM_EXCEL".
Proof. apply get_igual. apply (clasificar_otros K _ _ _ Hr1); compute_done. Qed.

Lemma dos_veces_constantes k :
  k ∈ ["GRUPO"; "CLASE"; "USO"; "PORCENTAJE_PROPIEDAD"; "FECHA_CLASIFICACION";
       "VERSION_REGLAS"] ->
  r2 !! k = r1 !! k.
Proof.
  intros Hk.
  destruct (clasificar_constantes K _ _ _ Hr1) as (A1 & A2 & A3 & A4 & A5 & A6).
  destruct (clasificar_constantes K _ _ _ Hr2) as (B1 & B2 & B3 & B4 & B5 & B6).
  repeat (apply elem_of_cons in Hk as [->|Hk]; [congruence|]).
  by apply elem_of_nil in Hk.
Qed.

Lemma dos_veces_PROPIETARIO : r2 !! "PROPIETARIO" = r1 !! "PROPIETARIO".
Proof.
  destruct (clasificar_PROPIETARIO K _ _ _ Hr1) as (p & Hp & Hp1).
  destruct (clasificar_PROPIETARIO K _ _ _ Hr2) as (p2 & Hp' & Hp2).
  rewrite (get_lookup _ _ _ Hp1), (_clasificar_propietario_fijo _ _ Hp) in Hp'.
  congruence.
Qed.

Lemma dos_veces_TIPO : r2 !! "TIPO" = r1 !! "TIPO".
Proof.
  destruct (clasificar_TIPO K _ _ _ Hr1) as (uc & Huc & H1).
  destruct (clasificar_TIPO K _ _ _ Hr2) as (uc2 & Huc2 & H2).
  rewrite igual_UC, Huc in Huc2. congruence.
Qed.

Lemma dos_veces_TIPO_PROYECTO : r2 !! "TIPO_PROYECTO" = r1 !! "TIPO_PROYECTO".
Proof.
  destruct (clasificar_TIPO_PROYECTO K _ _ _ Hr1)
    as (uc & nv & pr & Huc & Hnv & Hpr & H1).
  destruct (clasificar_TIPO_PROYECTO K _ _ _ Hr2)
    as (uc' & nv' & pr2 & Huc' & Hnv' & Hpr2 & H2).
  rewrite igual_UC, Huc in Huc'. rewrite igual_NIVEL_TENSION, Hnv in Hnv'.
  simplify_eq. rewrite H1, H2. do 2 f_equal.
  unfold regla_tipo_proyecto in Hpr, Hpr2. cbv zeta in Hpr, Hpr2.
  destruct (no_vacia (_generar_tipo_proyecto_desde_nivel_tension K _)).
  - by simplify_eq.
  - rewrite (get_lookup _ _ _ H1) in Hpr2.
    destruct (get registro "TIPO_PROYECTO") as [| |te]; try done.
    cbn [como_str mbind option_bind] in Hpr, Hpr2. simplify_eq. cbn [fst].
    apply (_convertir_tipo_proyecto_fijo K HK_conversion). apply strip_idem.
Qed.

Lemma dos_veces_fechas k :
  k = "FECHA_INSTALACION" \/ k = "FECHA_OPERACION" -> r2 !! k = r1 !! k.
Proof.
  intros Hk.
  pose proof (clasificar_fechas K _ _ _ "FECHA_INSTALACION" Hr1 (or_introl eq_refl))
    as Hfi.
  pose proof (clasificar_fechas K _ _ _ k Hr2 Hk) as H2.
  rewrite H2. clear H2.
  destruct (truthy (get registro "FECHA_INSTALACION")) eqn:Et.
  - rewrite (get_lookup _ _ _ Hfi).
    pose proof (clasificar_fechas K _ _ _ k Hr1 Hk) as H1. rewrite Et in H1.
    destruct (decide (DataUtils.formatear_fecha (get registro "FECHA_INSTALACION") = ""))
      as [E|E].
    + by rewrite E.
    + rewrite (formatear_fecha_fijo _ E), H1.
      by destruct (DataUtils.formatear_fecha _).
  - rewrite (get_igual _ _ _ Hfi), Et. done.
Qed.

Lemma dos_veces_CODIGO_MATERIAL : r2 !! "CODIGO_MATERIAL" = r1 !! "CODIGO_MATERIAL".
Proof.
  destruct (clasificar_CODIGO_MATERIAL K _ _ _ Hr1) as (uc & Huc & H1).
  destruct (clasificar_CODIGO_MATERIAL K _ _ _ Hr2) as (uc' & Huc' & H2).
  rewrite igual_UC, Huc in Huc'. simplify_eq.
  rewrite H2. clear H2. cbv zeta in *. rewrite igual_bandera.
  destruct (no_vacia (DataUtils.normalizar_codigo_material
                        (get registro "CODIGO_MATERIAL"))) eqn:E1.
  - rewrite (get_lookup _ _ _ H1), normalizar_codigo_material_fijo, E1. done.
  - destruct (truthy (get registro "_CODIGO_MATERIAL_FROM_EXCEL")).
    + rewrite (get_igual _ _ _ H1), E1. done.
    + destruct (no_vacia (_asignar_codigo_material K _)).
      * rewrite (get_lookup _ _ _ H1), normalizar_codigo_material_fijo, H1.
        by case_match.
      * rewrite (get_igual _ _ _ H1), E1. done.
Qed.

Lemma dos_veces_ESTADO_SALUD : r2 !! "ESTADO_SALUD" = r1 !! "ESTADO_SALUD".
Proof.
  pose proof (clasificar_ESTADO_SALUD K _ _ _ Hr1) as H1.
  pose proof (clasificar_ESTADO_SALUD K _ _ _ Hr2) as H2.
  rewrite H2. clear H2. cbv zeta in *.
  destruct (no_vacia (_convertir_estado_salud K (get registro "ESTADO_SALUD")))
    eqn:E1.
  - rewrite (get_lookup _ _ _ H1),
      (_convertir_estado_salud_fijo K HK_estados _ E1), E1. done.
  - rewrite (get_igual _ _ _ H1), E1. done.
Qed.

Lemma dos_veces_OBSERVACIONES : r2 !! "OBSERVACIONES" = r1 !! "OBSERVACIONES".
Proof.
  destruct (clasificar_OBSERVACIONES K _ _ _ Hr1) as (o & Ho & H1).
  destruct (clasificar_OBSERVACIONES K _ _ _ Hr2) as (o2 & Ho2 & H2).
  rewrite H2. clear H2.
  destruct (negb (no_vacia (strip o))) eqn:E.
  - rewrite (get_lookup _ _ _ H1) in Ho2. simplify_eq. by rewrite H1.
  - rewrite (get_igual _ _ _ H1), Ho in Ho2. simplify_eq. by rewrite E.
Qed.

Lemma dos_veces_campos k : k <> campo_auditoria -> r2 !! k = r1 !! k.
Proof.
  intros Hk.
  destruct (decide (k ∈ campos_clasificados)) as [H|H];
    [|by apply (clasificar_otros K _ _ _ Hr2)].
  unfold campos_clasificados in H.
  repeat (apply elem_of_cons in H as [->|H];
          [first [ done
                 | apply dos_veces_constantes; compute_done
                 | apply dos_veces_PROPIETARIO
                 | apply dos_veces_TIPO
                 | apply dos_veces_TIPO_PROYECTO
                 | by apply dos_veces_fechas; auto
                 | apply dos_veces_CODIGO_MATERIAL
                 | apply dos_veces_ESTADO_SALUD
                 | apply dos_veces_OBSERVACIONES ]|]).
  by apply elem_of_nil in H.
Qed.

End Segunda_pasada.
(** C8 (amended).  Classifying a classified record again, at the same
    reading of the clock, succeeds and gives a record that agrees with the
    first result on every field except the audit remarks
    OBSERVACION_CLASIFICACION_SISTEMA: the remarks describe the conversions
    of the pass that wrote them, and the second pass has nothing to convert.
    The conversion table of the project type and the table of the health
    states are those of the specification; the other tables are
    arbitrary. *)
Theorem C8_clasificar_dos_veces (K : constantes) (ahora : string)
    (registro r1 : gmap string pyval) :
  CONVERSION_TIPO_PROYECTO K = CONVERSION_TIPO_PROYECTO_spec ->
  ESTADOS_SALUD K = ESTADOS_SALUD_spec ->
  clasificar_estructura K ahora registro = Some r1 ->
  exists r2, clasificar_estructura K ahora r1 = Some r2
    /\ forall k, k <> campo_auditoria -> r2 !! k = r1 !! k.
Proof.
  intros HKc HKe Hr1.
  destruct (clasificar_total K ahora r1
              (clasificado_de_texto K ahora registro r1 Hr1)) as [r2 Hr2].
  exists r2. split; [done|]. intros k Hk.
  by apply (dos_veces_campos K HKc HKe ahora registro r1 r2 Hr1 Hr2).
Qed.

Lemma C8_clasificar_dos_veces_witness :
  exists r1 r2,
    clasificar_estructura constantes_spec EjemplosClasificacion.ahora
      EjemplosClasificacion.fila_tipo_inversion = Some r1
    /\ clasificar_estructura constantes_spec EjemplosClasificacion.ahora r1
       = Some r2
    /\ forall k, k <> campo_auditoria -> r2 !! k = r1 !! k.
Proof.
  destruct (clasificar_total constantes_spec EjemplosClasificacion.ahora
              EjemplosClasificacion.fila_tipo_inversion eq_refl) as [r1 Hr1].
  destruct (C8_clasificar_dos_veces constantes_spec EjemplosClasificacion.ahora
              EjemplosClasificacion.fila_tipo_inversion r1 eq_refl eq_refl Hr1)
    as (r2 & Hr2 & H).
  exists r1, r2. split; [exact Hr1|]. split; [exact Hr2|exact H].
Defined.

(** C8, counterexample.  A row whose project type T2 comes from the
    investment type of the sheet and whose health state is the code 1: the
    first pass records the conversion of the health state in the audit
    remarks, the second pass finds BUENO and records none, so the two
    records differ. *)
Lemma C8_counterexample :
  EjemplosClasificacion.fila_tipo_inversion !! "TIPO_PROYECTO" = Some (PStr "T2")
  /\ EjemplosClasificacion.fila_tipo_inversion !! "_TIPO_PROYECTO_EXCEL"
     = Some (PStr "T2")
  /\ exists r1 r2,
       clasificar_estructura constantes_spec EjemplosClasificacion.ahora
         EjemplosClasificacion.fila_tipo_inversion = Some r1
       /\ clasificar_estructura constantes_spec EjemplosClasificacion.ahora r1
          = Some r2
       /\ r2 !! campo_auditoria <> r1 !! campo_auditoria
       /\ r2 <> r1.
Proof.
  split; [by vm_compute|]. split; [by vm_compute|].
  exists EjemplosClasificacion.clasificada, EjemplosClasificacion.reclasificada.
  assert (clasificar_estructura constantes_spec EjemplosClasificacion.ahora
            EjemplosClasificacion.fila_tipo_inversion
          = Some EjemplosClasificacion.clasificada) as Hr1.
  { destruct (clasificar_total constantes_spec EjemplosClasificacion.ahora
                EjemplosClasificacion.fila_tipo_inversion eq_refl) as [r Hr].
    unfold EjemplosClasificacion.clasificada. by rewrite Hr. }
  assert (clasificar_estructura constantes_spec EjemplosClasificacion.ahora
            EjemplosClasificacion.clasificada
          = Some EjemplosClasificacion.reclasificada) as Hr2.
  { destruct (clasificar_total constantes_spec EjemplosClasificacion.ahora
                EjemplosClasificacion.clasificada
                (clasificado_de_texto _ _ _ _ Hr1)) as [r Hr].
    unfold EjemplosClasificacion.reclasificada. by rewrite Hr. }
  split; [exact Hr1|]. split; [exact Hr2|].
  assert (EjemplosClasificacion.reclasificada !! campo_auditoria
          <> EjemplosClasificacion.clasificada !! campo_auditoria) as Hd.
  { vm_compute. discriminate. }
  split; [exact Hd|]. intros E. apply Hd. by rewrite E.
Qed.
